(** * leave_delete_guard_plugin: the guarded action executor of [core.py]

    A shallow embedding of [core.py] (the policy evaluator
    [execute_guard_action] and the remote invoker [call_napcat]) together
    with the properties its specification states about them.

    Python values are modelled as the code uses them:
    - a [str] is the list of its Unicode code points, so that [len] counts
      characters and the Chinese messages of the source are kept verbatim;
    - [Optional[T]] is [option T], a [set[str]] with membership tests only
      is a [gset], a decoded JSON document is the inductive [PyVal];
    - the early [return GuardResult(...)] statements of
      [execute_guard_action] are the left injection of a sum, threaded
      through the gates in source order;
    - the single HTTP exchange of [call_napcat] is a function from the
      request to what [httpx] reports back (a timeout, a request error or
      a response), a variable of the development. *)

From Stdlib Require Import ZArith NArith List Ascii String Bool Lia DecimalString SpecFloat.
From stdpp Require Import gmap list.
Import ListNotations.

#[local] Set Warnings "-register-all".
#[local] Open Scope Z_scope.

(** ** Python strings *)

Module PyStr.

(** A Python [str]: the sequence of its code points. *)
Definition pystr : Type := list N.

(** Decoder for the UTF-8 bytes of a string literal of this file; [acc]
    is the code point under construction and [need] the number of
    continuation bytes it still lacks. *)
Fixpoint utf8_decode (acc : N) (need : nat) (bs : list N) : pystr :=
  match bs with
  | [] => []
  | b :: rest =>
      if (b <? 128)%N then b :: utf8_decode 0%N 0%nat rest
      else if (b <? 192)%N then
        let acc' := (acc * 64 + (b - 128))%N in
        match need with
        | 0%nat => utf8_decode 0%N 0%nat rest
        | 1%nat => acc' :: utf8_decode 0%N 0%nat rest
        | S n => utf8_decode acc' n rest
        end
      else if (b <? 224)%N then utf8_decode (b - 192)%N 1%nat rest
      else if (b <? 240)%N then utf8_decode (b - 224)%N 2%nat rest
      else utf8_decode (b - 240)%N 3%nat rest
  end.

(** The Python literal written as the Rocq string [s]. *)
Definition lit (s : string) : pystr :=
  utf8_decode 0%N 0%nat (map N_of_ascii (list_ascii_of_string s)).

(** [len(s)]. *)
Definition len (s : pystr) : Z := Z.of_nat (length s).

(** Truth value of a [str]: only the empty string is false. *)
Definition truthy (s : pystr) : bool :=
  match s with [] => false | _ :: _ => true end.

(** [s or d] on strings. *)
Definition str_or (s d : pystr) : pystr := if truthy s then s else d.

(** Truth value of an [Optional[str]]: [None] and [""] are false. *)
Definition truthy_opt (o : option pystr) : bool :=
  match o with Some s => truthy s | None => false end.

(** [s == t] on strings. *)
Definition eqb (s t : pystr) : bool := bool_decide (s = t).

(** The characters [str.strip()] removes: those with [str.isspace()]. *)
Definition is_space (c : N) : bool :=
  ((9 <=? c) && (c <=? 13) || (28 <=? c) && (c <=? 32)
   || (c =? 133) || (c =? 160) || (c =? 5760)
   || (8192 <=? c) && (c <=? 8202)
   || (c =? 8232) || (c =? 8233) || (c =? 8239) || (c =? 8287)
   || (c =? 12288))%N.

Fixpoint lstrip (s : pystr) : pystr :=
  match s with
  | [] => []
  | c :: rest => if is_space c then lstrip rest else s
  end.

Definition rstrip (s : pystr) : pystr := rev (lstrip (rev s)).

(** [s.strip()]. *)
Definition strip (s : pystr) : pystr := rstrip (lstrip s).

Definition is_ascii (c : N) : bool := (c <? 128)%N.

(** Case mapping of one ASCII character: [A-Z] to [a-z]. *)
Definition ascii_lower_char (c : N) : N :=
  if ((65 <=? c) && (c <=? 90))%N then (c + 32)%N else c.

(** [str(n)] for an [int]. *)
Definition str_of_int (n : Z) : pystr :=
  map N_of_ascii (list_ascii_of_string (NilZero.string_of_int (Z.to_int n))).

(** [str(b)] for a [bool]. *)
Definition str_of_bool (b : bool) : pystr :=
  if b then lit "True" else lit "False".

End PyStr.
Import PyStr.

#[local] Notation "« s »" := (lit s) (at level 0, s at level 0, format "« s »").

(** ** Decoded JSON documents and the HTTP exchange *)

(** A value as [json] decodes it, and as the request payloads are built;
    a [dict] keeps its insertion order and has pairwise distinct keys. *)
Inductive PyVal : Type :=
  | PyNone
  | PyBool (b : bool)
  | PyInt (n : Z)
  | PyFloat (x : SpecFloat.spec_float)
  | PyStr (s : pystr)
  | PyList (l : list PyVal)
  | PyDict (d : list (pystr * PyVal)).

(** [d.get(key)], [None] when the key is absent. *)
Fixpoint dict_get (d : list (pystr * PyVal)) (key : pystr) : PyVal :=
  match d with
  | [] => PyNone
  | (k, v) :: rest => if eqb k key then v else dict_get rest key
  end.

(** [d.get(key, default)]. *)
Fixpoint dict_get_default (d : list (pystr * PyVal)) (key : pystr)
    (default : PyVal) : PyVal :=
  match d with
  | [] => default
  | (k, v) :: rest => if eqb k key then v else dict_get_default rest key default
  end.

(** Truth value of a decoded value. *)
Definition py_truthy (v : PyVal) : bool :=
  match v with
  | PyNone => false
  | PyBool b => b
  | PyInt n => negb (n =? 0)
  | PyFloat x => match x with SpecFloat.S754_zero _ => false | _ => true end
  | PyStr s => truthy s
  | PyList l => match l with [] => false | _ => true end
  | PyDict d => match d with [] => false | _ => true end
  end.

(** [a or b] on decoded values. *)
Definition py_or (a b : PyVal) : PyVal := if py_truthy a then a else b.

(** [v != s] for a string [s]: only the same string is equal to it. *)
Definition py_ne_str (v : PyVal) (s : pystr) : bool :=
  match v with
  | PyStr t => negb (eqb t s)
  | _ => true
  end.

Abbreviation Payload := (list (pystr * PyVal)).

(** [NapcatRaw], [NapcatResult] and [NapcatCaller] of the source. *)
Abbreviation NapcatRaw := (option Payload).
Abbreviation NapcatResult := (bool * pystr * NapcatRaw)%type.
Abbreviation NapcatCaller :=
  (pystr -> pystr -> pystr -> pystr -> Payload -> NapcatResult).

(** The request [client.post(url, json=payload, headers=headers)] sends. *)
Record HttpRequest : Type := {
  req_url : pystr;
  req_json : Payload;
  req_headers : list (pystr * pystr)
}.

(** The ways the exchange can end in which [call_napcat] returns: one of
    the two exceptions it catches, or a response with its status code
    and, where [response.json()] is called, what it gives: the decoded
    value, or [None] when it raises [ValueError]. The other ways are in
    [Exchange] below. *)
Inductive HttpOutcome : Type :=
  | TimeoutException
  | RequestError (exc : pystr)
  | Response (status_code : Z) (json : option PyVal).

(** An exception that propagates out of [core.py], by the name of its
    class. *)
Inductive Propagated : Type :=
  | Raised (exception : pystr).

(** How the exchange ends, every case: as an [HttpOutcome] says; or
    with an exception that no handler of lines 83-99 catches, raised by
    [client.post] and neither an [httpx.TimeoutException] nor an
    [httpx.RequestError] (as [httpx.InvalidURL], for a port that is not
    a number), or raised by [response.json()] on a 2xx response and not
    a [ValueError]. *)
Inductive Exchange : Type :=
  | Handled (outcome : HttpOutcome)
  | Unhandled (exc : Propagated).

(** A caller that may raise instead of returning its triple. *)
Abbreviation RaisingCaller :=
  (pystr -> pystr -> pystr -> pystr -> Payload -> Propagated + NapcatResult).

(** ** The records of [core.py] *)

Record GuardContext : Type := {
  is_group : bool;
  group_id : option pystr;
  private_user_id : option pystr
}.

Record GuardPolicy : Type := {
  mode : pystr;
  developer_whitelist : gset pystr;
  allow_force : bool;
  default_dry_run : bool;
  dry_run_override : option bool;
  napcat_host : pystr;
  napcat_port : pystr;
  napcat_token : pystr;
  min_reason_length : Z
}.

Record GuardResult : Type := {
  success : bool;
  message : pystr;
  action_type : pystr;
  target_id : option pystr;
  source : pystr;
  executed : bool;
  dry_run : bool
}.

(** [normalize_reason]: [None] becomes the empty string, a string is
    stripped ([str(reason)] is [reason] itself on a [str]). *)
Definition normalize_reason (reason : option pystr) : pystr :=
  match reason with
  | None => []
  | Some s => strip s
  end.

Definition get_effective_dry_run (default_dry_run : bool)
    (override : option bool) : bool :=
  match override with
  | None => default_dry_run
  | Some b => b
  end.

(** ** The functions of [core.py] *)

(** A gate of the evaluator: [inl r] is an early [return r], [inr x]
    lets the evaluation go on with [x]. *)
Definition Gate (A : Type) : Type := (GuardResult + A)%type.

#[local] Notation "'let?' x ':=' g 'in' k" :=
  (match g with inl r => inl r | inr x => k end)
  (at level 10, x pattern, g at level 100, k at level 200).

(** [str(o)] in an f-string, for an [Optional[str]]. *)
Definition str_of_opt (o : option pystr) : pystr :=
  match o with Some s => s | None => «"None"» end.

(** An [Optional[str]] as a payload value. *)
Definition val_of_opt (o : option pystr) : PyVal :=
  match o with Some s => PyStr s | None => PyNone end.

(** Line 78 of [call_napcat]. *)
Definition napcat_url (host port action : pystr) : pystr :=
  «"http://"» ++ host ++ «":"» ++ port ++ «"/"» ++ action.

(** Lines 78-81 and 85 of [call_napcat]: the request it posts. *)
Definition napcat_request (host port token action : pystr) (payload : Payload)
    : HttpRequest :=
  let url := napcat_url host port action in
  let headers := [(«"Content-Type"», «"application/json"»)] in
  let headers :=
    if truthy token
    then headers ++ [(«"Authorization"», «"Bearer "» ++ token)]
    else headers in
  {| req_url := url; req_json := payload; req_headers := headers |}.

(** A rejection, as the five gates build it. *)
Definition rejection (r : GuardResult) : Prop :=
  success r = false /\ executed r = false /\ dry_run r = false.

Arguments lit : simpl never.

(** ** The host of [plugin.py]: strings, dictionaries, messages, effects *)

(** [s.split(sep)] for a one-character separator: the pieces between
    the occurrences of [sep], empty pieces included. *)
Fixpoint split_on (sep : N) (s : pystr) : list pystr :=
  match s with
  | [] => [[]]
  | c :: rest =>
      if (c =? sep)%N then [] :: split_on sep rest
      else
        match split_on sep rest with
        | part :: parts => (c :: part) :: parts
        | [] => [[c]]
        end
  end.

(** [s.split()]: the maximal runs of characters that are not white
    space. *)
Fixpoint split (s : pystr) : list pystr :=
  match s with
  | [] => []
  | c :: rest =>
      if is_space c then split rest
      else
        match rest with
        | [] => [[c]]
        | d :: _ =>
            if is_space d then [c] :: split rest
            else
              match split rest with
              | word :: words => (c :: word) :: words
              | [] => [[c]]
              end
        end
  end.

(** [d[key]] together with [key in d]: [None] when the key is absent. *)
Fixpoint dict_find (d : Payload) (key : pystr) : option PyVal :=
  match d with
  | [] => None
  | (k, v) :: rest => if eqb k key then Some v else dict_find rest key
  end.

(** The part of a chat message that [plugin.py] reads through
    [getattr]: an attribute that is absent and one that is [None] are
    both [None] here where the code gives them the same default, and the
    two identifiers, of any type, are absent when the object has no such
    attribute. *)
Record GroupInfo : Type := { gi_group_id : option PyVal }.

Record UserInfo : Type := { ui_user_id : option PyVal }.

Record MessageInfo : Type := {
  group_info : option GroupInfo;
  user_info : option UserInfo
}.

Record Message : Type := {
  processed_plain_text : option pystr;
  message_info : option MessageInfo
}.

(** What the plugin does to its host, in the order it does it: records
    of the logger, texts sent to the chat, the action record stored. *)
Inductive Effect : Type :=
  | LogWarning (text : pystr)
  | LogInfo (text : pystr)
  | SendText (text : pystr)
  | StoreActionInfo (action_build_into_prompt : bool)
      (action_prompt_display : pystr) (action_done : bool).

(** The exception the command handler can raise. *)
Inductive PyException : Type :=
  | IndexError.

(** [o or d] for an [Optional[str]]. *)
Definition opt_or (o : option pystr) (d : pystr) : pystr :=
  match o with
  | Some s => str_or s d
  | None => d
  end.

(** [s or None] for a [str]. *)
Definition nonempty (s : pystr) : option pystr :=
  if truthy s then Some s else None.

(** The line feed of the source's string literals. *)
Definition newline : pystr := [10%N].

(** ** Sample inputs

    The concrete requests, policies and remote ends at which the
    properties below are instantiated. All of their strings are ASCII, so
    [lower] never consults the Unicode case mapping; [ascii_only] stands
    for it. *)

Module Sample.

Definition ascii_only (s : pystr) : pystr := s.

Definition no_repr (v : PyVal) : pystr := [].

(** The remote end of scenario D: it answers 403. *)
Definition post_403 (req : HttpRequest) : HttpOutcome := Response 403 None.

(** The remote end of scenario E: it answers 200 with the JSON document
    whose only field is a status of ok. *)
Definition ok_body : Payload := [(«"status"», PyStr «"ok"»)].

Definition post_ok (req : HttpRequest) : HttpOutcome :=
  Response 200 (Some (PyDict ok_body)).

Definition group_123 : GuardContext :=
  {| is_group := true; group_id := Some «"123"»; private_user_id := None |}.

Definition private_u1 : GuardContext :=
  {| is_group := false; group_id := None; private_user_id := Some «"u1"» |}.

(** A policy with the defaults of the plugin's configuration, apart from
    its mode, its dry-run default and its whitelist. *)
Definition policy (m : pystr) (dry : bool) (devs : gset pystr) : GuardPolicy :=
  {| mode := m;
     developer_whitelist := devs;
     allow_force := true;
     default_dry_run := dry;
     dry_run_override := None;
     napcat_host := «"127.0.0.1"»;
     napcat_port := «"3000"»;
     napcat_token := [];
     min_reason_length := 4 |}.

Definition with_force (allow : bool) (p : GuardPolicy) : GuardPolicy :=
  {| mode := mode p;
     developer_whitelist := developer_whitelist p;
     allow_force := allow;
     default_dry_run := default_dry_run p;
     dry_run_override := dry_run_override p;
     napcat_host := napcat_host p;
     napcat_port := napcat_port p;
     napcat_token := napcat_token p;
     min_reason_length := min_reason_length p |}.

Definition with_override (o : option bool) (p : GuardPolicy) : GuardPolicy :=
  {| mode := mode p;
     developer_whitelist := developer_whitelist p;
     allow_force := allow_force p;
     default_dry_run := default_dry_run p;
     dry_run_override := o;
     napcat_host := napcat_host p;
     napcat_port := napcat_port p;
     napcat_token := napcat_token p;
     min_reason_length := min_reason_length p |}.

(** A configuration file as the host hands it over: a mode to be
    normalized, a whitelist with an item that is not a string and one
    that is blank, and a dry-run default given as a word. *)
Definition config : Payload :=
  [(«"security"»,
    PyDict [(«"mode"», PyStr «" Normal "»);
            («"developer_whitelist"»,
             PyList [PyStr «" dev "»; PyInt 42; PyStr «"  "»])]);
   («"execution"», PyDict [(«"default_dry_run"», PyStr «"yes"»)])].

(** A message with the given text, from the given user, in the given
    group if any. *)
Definition message_of (text : pystr) (uid : PyVal) (grp : option GroupInfo)
    : Message :=
  {| processed_plain_text := Some text;
     message_info :=
       Some {| group_info := grp;
               user_info := Some {| ui_user_id := Some uid |} |} |}.

Definition group_77 : option GroupInfo :=
  Some {| gi_group_id := Some (PyInt 77) |}.

End Sample.

Section Core.

(** [str.lower()] on a string with a character outside ASCII: the
    Unicode case mapping, which the development leaves open. *)
Variable unicode_lower : pystr -> pystr.

(** [str(v)] for a [float], a [list] or a [dict]. *)
Variable py_repr : PyVal -> pystr.

(** The HTTP exchange: [client.post] under [httpx.AsyncClient]. *)
Variable post : HttpRequest -> HttpOutcome.

(** [s.lower()]: on an ASCII string, [A-Z] become [a-z]. *)
Definition lower (s : pystr) : pystr :=
  if forallb is_ascii s then map ascii_lower_char s else unicode_lower s.

(** [str(v)] in an f-string. *)
Definition py_str (v : PyVal) : pystr :=
  match v with
  | PyNone => «"None"»
  | PyBool b => str_of_bool b
  | PyInt n => str_of_int n
  | PyStr s => s
  | _ => py_repr v
  end.

(** [call_napcat], lines 71-109, where the exchange ends in one of the
    ways of [HttpOutcome]; [call_napcat_or_raise] below adds the
    exceptions that propagate. *)
Definition call_napcat (host port token action : pystr) (payload : Payload)
    : NapcatResult :=
  let url := napcat_url host port action in
  match post (napcat_request host port token action payload) with
  | TimeoutException => (false, «"请求 NapCat 超时: "» ++ url, None)
  | RequestError exc => (false, «"请求 NapCat 失败: "» ++ exc, None)
  | Response status_code body =>
      if (status_code =? 401) || (status_code =? 403) then
        (false, «"NapCat 鉴权失败(HTTP "» ++ str_of_int status_code ++ «")"», None)
      else if (status_code <? 200) || (status_code >=? 300) then
        (false, «"NapCat HTTP 错误: "» ++ str_of_int status_code, None)
      else
        match body with
        | None => (false, «"NapCat 返回了非 JSON 响应"», None)
        | Some (PyDict raw) =>
            if py_ne_str (dict_get raw «"status"») «"ok"» then
              let retcode := dict_get_default raw «"retcode"» (PyStr []) in
              let message :=
                py_or (py_or (dict_get raw «"message"») (dict_get raw «"wording"»))
                      (PyStr «"unknown"») in
              (false,
               «"NapCat 返回失败: status="» ++ py_str (dict_get raw «"status"»)
                 ++ «", retcode="» ++ py_str retcode
                 ++ «", message="» ++ py_str message,
               Some raw)
            else (true, «"ok"», Some raw)
        | Some _ => (false, «"NapCat 返回格式异常"», None)
        end
  end.

(** Gate 1, lines 126-135: the action type. *)
Definition gate_action_type (action_type normalized_action source : pystr)
    : Gate unit :=
  if negb (eqb normalized_action «"leave"» || eqb normalized_action «"delete"») then
    inl {| success := false;
           message := «"不支持的动作类型: "» ++ action_type;
           action_type := str_or normalized_action action_type;
           target_id := None;
           source := source;
           executed := false;
           dry_run := false |}
  else inr tt.

(** Gate 2, lines 137-174: the context of the action; it yields the
    remote action, its payload and the target. *)
Definition gate_context (normalized_action : pystr) (context : GuardContext)
    (source : pystr) : Gate (pystr * Payload * option pystr) :=
  if eqb normalized_action «"leave"» then
    if negb (is_group context) || negb (truthy_opt (group_id context)) then
      inl {| success := false;
             message := «"当前不是群聊上下文，拒绝执行退群"»;
             action_type := normalized_action;
             target_id := None;
             source := source;
             executed := false;
             dry_run := false |}
    else
      inr («"set_group_leave"»,
           [(«"group_id"», val_of_opt (group_id context));
            («"is_dismiss"», PyBool false)],
           group_id context)
  else
    if is_group context then
      inl {| success := false;
             message := «"当前是群聊上下文，拒绝执行删好友"»;
             action_type := normalized_action;
             target_id := None;
             source := source;
             executed := false;
             dry_run := false |}
    else if negb (truthy_opt (private_user_id context)) then
      inl {| success := false;
             message := «"当前私聊对象缺失，拒绝执行删好友"»;
             action_type := normalized_action;
             target_id := None;
             source := source;
             executed := false;
             dry_run := false |}
    else
      inr («"delete_friend"»,
           [(«"user_id"», val_of_opt (private_user_id context))],
           private_user_id context).

(** Gate 4, lines 176-185: the length of the reason, under the mode that
    line 124 resolved (gate 3). *)
Definition gate_reason_length (normalized_action normalized_mode
    normalized_reason : pystr) (target_id : option pystr) (source : pystr)
    (policy : GuardPolicy) : Gate unit :=
  if eqb normalized_mode «"cautious"»
     && (len normalized_reason <? min_reason_length policy) then
    inl {| success := false;
           message := «"审慎模式拒绝执行：reason 至少 "»
                        ++ str_of_int (min_reason_length policy) ++ «" 个字符"»;
           action_type := normalized_action;
           target_id := target_id;
           source := source;
           executed := false;
           dry_run := false |}
  else inr tt.

(** Gate 5, lines 187-208: force. *)
Definition gate_force (normalized_action actor_user_id : pystr) (force : bool)
    (target_id : option pystr) (source : pystr) (policy : GuardPolicy)
    : Gate unit :=
  let actor := str_or actor_user_id [] in
  let is_whitelisted := bool_decide (actor ∈ developer_whitelist policy) in
  if force && negb (allow_force policy) then
    inl {| success := false;
           message := «"当前配置禁用了 force"»;
           action_type := normalized_action;
           target_id := target_id;
           source := source;
           executed := false;
           dry_run := false |}
  else if force && negb is_whitelisted then
    inl {| success := false;
           message := «"force 仅允许开发者白名单使用"»;
           action_type := normalized_action;
           target_id := target_id;
           source := source;
           executed := false;
           dry_run := false |}
  else inr tt.

(** Line 122. *)
Definition normalize_action (action_type : pystr) : pystr :=
  lower (strip (str_or action_type [])).

(** Line 124: gate 3, the mode of the policy. *)
Definition normalize_mode (policy : GuardPolicy) : pystr :=
  lower (strip (str_or (mode policy) «"cautious"»)).

(** Lines 122-208 of [execute_guard_action]: the five gates in order. *)
Definition guard_gates (action_type actor_user_id : pystr)
    (context : GuardContext) (force : bool) (reason : option pystr)
    (source : pystr) (policy : GuardPolicy)
    : Gate (pystr * Payload * option pystr) :=
  let normalized_action := normalize_action action_type in
  let normalized_reason := normalize_reason reason in
  let normalized_mode := normalize_mode policy in
  let? _ := gate_action_type action_type normalized_action source in
  let? (napcat_action, payload, target_id) :=
    gate_context normalized_action context source in
  let? _ := gate_reason_length normalized_action normalized_mode
              normalized_reason target_id source policy in
  let? _ := gate_force normalized_action actor_user_id force target_id
              source policy in
  inr (napcat_action, payload, target_id).

(** [execute_guard_action], lines 112-252, where the caller awaited at
    line 226 returns; [execute_guard_action_or_raise] below adds the
    exceptions that propagate. *)
Definition execute_guard_action (action_type actor_user_id : pystr)
    (context : GuardContext) (force : bool) (reason : option pystr)
    (source : pystr) (policy : GuardPolicy)
    (napcat_caller : option NapcatCaller) : GuardResult :=
  let normalized_action := normalize_action action_type in
  let normalized_reason := normalize_reason reason in
  match guard_gates action_type actor_user_id context force reason source
          policy with
  | inl rejection => rejection
  | inr (napcat_action, payload, target_id) =>
      let dry_run :=
        get_effective_dry_run (default_dry_run policy) (dry_run_override policy) in
      if dry_run then
        {| success := true;
           message := «"[dry-run] 已通过校验，将执行 "» ++ normalized_action
                        ++ «" -> "» ++ str_of_opt target_id
                        ++ «"; source="» ++ source
                        ++ «"; force="» ++ str_of_bool force
                        ++ «"; reason="» ++ str_or normalized_reason «"N/A"»;
           action_type := normalized_action;
           target_id := target_id;
           source := source;
           executed := false;
           dry_run := true |}
      else
        let caller :=
          match napcat_caller with Some c => c | None => call_napcat end in
        let '(ok, detail, _raw) :=
          caller (napcat_host policy) (napcat_port policy) (napcat_token policy)
                 napcat_action payload in
        if negb ok then
          {| success := false;
             message := «"执行 "» ++ normalized_action ++ «" 失败: "» ++ detail;
             action_type := normalized_action;
             target_id := target_id;
             source := source;
             executed := false;
             dry_run := false |}
        else
          {| success := true;
             message := «"执行 "» ++ normalized_action ++ «" 成功，目标="»
                          ++ str_of_opt target_id;
             action_type := normalized_action;
             target_id := target_id;
             source := source;
             executed := true;
             dry_run := false |}
  end.

(** [call_napcat], lines 71-109, with the exceptions it lets through:
    the exchange either ends in a way that lines 83-99 handle, and the
    function returns as [call_napcat] does, or raises an exception that
    no handler there catches, and the function raises it. *)
Definition call_napcat_or_raise (exchange : HttpRequest -> Exchange)
    (host port token action : pystr) (payload : Payload)
    : Propagated + NapcatResult :=
  let url := napcat_url host port action in
  match exchange (napcat_request host port token action payload) with
  | Unhandled exc => inl exc
  | Handled TimeoutException => inr (false, «"请求 NapCat 超时: "» ++ url, None)
  | Handled (RequestError exc) =>
      inr (false, «"请求 NapCat 失败: "» ++ exc, None)
  | Handled (Response status_code body) =>
      if (status_code =? 401) || (status_code =? 403) then
        inr (false,
             «"NapCat 鉴权失败(HTTP "» ++ str_of_int status_code ++ «")"»,
             None)
      else if (status_code <? 200) || (status_code >=? 300) then
        inr (false, «"NapCat HTTP 错误: "» ++ str_of_int status_code, None)
      else
        match body with
        | None => inr (false, «"NapCat 返回了非 JSON 响应"», None)
        | Some (PyDict raw) =>
            if py_ne_str (dict_get raw «"status"») «"ok"» then
              let retcode := dict_get_default raw «"retcode"» (PyStr []) in
              let message :=
                py_or (py_or (dict_get raw «"message"») (dict_get raw «"wording"»))
                      (PyStr «"unknown"») in
              inr (false,
                   «"NapCat 返回失败: status="»
                     ++ py_str (dict_get raw «"status"»)
                     ++ «", retcode="» ++ py_str retcode
                     ++ «", message="» ++ py_str message,
                   Some raw)
            else inr (true, «"ok"», Some raw)
        | Some _ => inr (false, «"NapCat 返回格式异常"», None)
        end
  end.

(** [execute_guard_action], lines 112-252, with the exceptions it lets
    through: nothing in it handles an exception, so what the caller
    awaited at line 226 raises is raised by the evaluator. *)
Definition execute_guard_action_or_raise (exchange : HttpRequest -> Exchange)
    (action_type actor_user_id : pystr) (context : GuardContext)
    (force : bool) (reason : option pystr) (source : pystr)
    (policy : GuardPolicy) (napcat_caller : option RaisingCaller)
    : Propagated + GuardResult :=
  let normalized_action := normalize_action action_type in
  let normalized_reason := normalize_reason reason in
  match guard_gates action_type actor_user_id context force reason source
          policy with
  | inl rejection => inr rejection
  | inr (napcat_action, payload, target_id) =>
      let dry_run :=
        get_effective_dry_run (default_dry_run policy) (dry_run_override policy) in
      if dry_run then
        inr {| success := true;
               message := «"[dry-run] 已通过校验，将执行 "» ++ normalized_action
                            ++ «" -> "» ++ str_of_opt target_id
                            ++ «"; source="» ++ source
                            ++ «"; force="» ++ str_of_bool force
                            ++ «"; reason="»
                            ++ str_or normalized_reason «"N/A"»;
               action_type := normalized_action;
               target_id := target_id;
               source := source;
               executed := false;
               dry_run := true |}
      else
        let caller :=
          match napcat_caller with
          | Some c => c
          | None => call_napcat_or_raise exchange
          end in
        match caller (napcat_host policy) (napcat_port policy)
                (napcat_token policy) napcat_action payload with
        | inl exc => inl exc
        | inr (ok, detail, _raw) =>
            if negb ok then
              inr {| success := false;
                     message := «"执行 "» ++ normalized_action ++ «" 失败: "»
                                  ++ detail;
                     action_type := normalized_action;
                     target_id := target_id;
                     source := source;
                     executed := false;
                     dry_run := false |}
            else
              inr {| success := true;
                     message := «"执行 "» ++ normalized_action
                                  ++ «" 成功，目标="» ++ str_of_opt target_id;
                     action_type := normalized_action;
                     target_id := target_id;
                     source := source;
                     executed := true;
                     dry_run := false |}
        end
  end.

(** [parse_bool_like], lines 45-56 of [core.py]. *)
Definition parse_bool_like (value : PyVal) (default : bool) : bool :=
  match value with
  | PyBool b => b
  | PyInt _ | PyFloat _ => py_truthy value
  | PyStr s =>
      let normalized := lower (strip s) in
      if existsb (eqb normalized)
           [«"1"»; «"true"»; «"yes"»; «"y"»; «"on"»] then true
      else if existsb (eqb normalized)
                [«"0"»; «"false"»; «"no"»; «"n"»; «"off"»] then false
      else default
  | _ => default
  end.

(** The argument of [normalize_reason] when it is a value of any type:
    line 62 takes [str(reason)] of what is not [None]. *)
Definition reason_of (v : PyVal) : option pystr :=
  match v with
  | PyNone => None
  | _ => Some (py_str v)
  end.

(** ** The functions of [plugin.py] *)

(** The loop of [_get_nested], lines 27-31. *)
Fixpoint _get_nested_from (current : PyVal) (parts : list pystr)
    (default : PyVal) : PyVal :=
  match parts with
  | [] => current
  | part :: rest =>
      match current with
      | PyDict d =>
          match dict_find d part with
          | Some v => _get_nested_from v rest default
          | None => default
          end
      | _ => default
      end
  end.

(** [_get_nested], lines 23-32. *)
Definition _get_nested (config : option Payload) (key : pystr)
    (default : PyVal) : PyVal :=
  match config with
  | None | Some [] => default
  | Some d => _get_nested_from (PyDict d) (split_on 46 key) default
  end.

(** [_to_whitelist], lines 35-38. *)
Definition _to_whitelist (values : PyVal) : gset pystr :=
  match values with
  | PyList l =>
      list_to_set
        (List.filter truthy (map (fun item => strip (py_str item)) l))
  | _ => ∅
  end.

(** [_build_policy], lines 41-56, with the module's
    [_RUNTIME_DRY_RUN_OVERRIDE] as the argument [runtime_override]; it
    yields the policy and what it logs. *)
Definition _build_policy (plugin_config : option Payload)
    (runtime_override : option bool) : GuardPolicy * list Effect :=
  let mode :=
    lower (strip (py_str (_get_nested plugin_config «"security.mode"»
                            (PyStr «"cautious"»)))) in
  let '(mode, logged) :=
    if negb (eqb mode «"cautious"» || eqb mode «"normal"») then
      («"cautious"»,
       [LogWarning («"security.mode="» ++ mode ++ «" 非法，已回退为 cautious"»)])
    else (mode, []) in
  ({| mode := mode;
      developer_whitelist :=
        _to_whitelist (_get_nested plugin_config
                         «"security.developer_whitelist"» (PyList []));
      allow_force :=
        parse_bool_like (_get_nested plugin_config «"security.allow_force"»
                           (PyBool true)) true;
      default_dry_run :=
        parse_bool_like (_get_nested plugin_config
                           «"execution.default_dry_run"» (PyBool false)) false;
      dry_run_override := runtime_override;
      napcat_host :=
        py_str (_get_nested plugin_config «"execution.napcat_host"»
                  (PyStr «"127.0.0.1"»));
      napcat_port :=
        py_str (_get_nested plugin_config «"execution.napcat_port"»
                  (PyStr «"3000"»));
      napcat_token :=
        py_str (_get_nested plugin_config «"execution.napcat_token"»
                  (PyStr []));
      min_reason_length := 4 |},
   logged).

(** [_set_runtime_dry_run_override], lines 59-61: the new value of
    [_RUNTIME_DRY_RUN_OVERRIDE]. *)
Definition _set_runtime_dry_run_override (value : option bool)
    (runtime_override : option bool) : option bool :=
  value.

(** [_build_action_context], lines 64-67. *)
Definition _build_action_context (is_group : bool)
    (group_id user_id : option pystr) : GuardContext :=
  if is_group then
    {| is_group := true; group_id := group_id; private_user_id := None |}
  else
    {| is_group := false; group_id := None; private_user_id := user_id |}.

(** [LeaveDeleteGuardAction.execute], lines 90-124. Its arguments are
    the attributes of [self] it reads; it yields what it returns and
    what it does to its host. *)
Definition LeaveDeleteGuardAction_execute (self_log_prefix : pystr)
    (self_action_data : Payload) (self_action_reasoning : PyVal)
    (self_plugin_config : option Payload) (self_is_group : bool)
    (self_group_id self_user_id : option pystr)
    (runtime_override : option bool) : (bool * pystr) * list Effect :=
  let force := false in
  let warned :=
    match dict_find self_action_data «"force"» with
    | Some _ =>
        [LogWarning
           (self_log_prefix ++ «" planner action 提供了 force 参数，已忽略"»)]
    | None => []
    end in
  let reason :=
    str_or (normalize_reason (reason_of (dict_get self_action_data «"reason"»)))
           (normalize_reason (reason_of self_action_reasoning)) in
  let '(policy, logged) := _build_policy self_plugin_config runtime_override in
  let context :=
    _build_action_context self_is_group self_group_id self_user_id in
  let requested := if is_group context then «"leave"» else «"delete"» in
  let actor_user_id := opt_or self_user_id [] in
  let result :=
    execute_guard_action requested actor_user_id context force
      (Some reason) «"planner"» policy None in
  ((success result, message result),
   warned ++ logged
     ++ [StoreActionInfo true (message result) (success result);
         LogInfo (self_log_prefix ++ «" planner action done: action="»
                    ++ action_type result
                    ++ «" success="» ++ str_of_bool (success result)
                    ++ «" target="» ++ str_of_opt (target_id result)
                    ++ «" dry_run="» ++ str_of_bool (dry_run result))]).

(** [LeaveDeleteGuardCommand._get_actor_user_id], lines 191-194. *)
Definition _get_actor_user_id (self_message : Message) : pystr :=
  let info :=
    match message_info self_message with
    | Some mi => user_info mi
    | None => None
    end in
  let user_id :=
    match info with
    | Some ui => match ui_user_id ui with Some v => v | None => PyStr [] end
    | None => PyStr []
    end in
  py_str (py_or user_id (PyStr [])).

(** [LeaveDeleteGuardCommand._build_context_from_message], lines
    196-206. *)
Definition _build_context_from_message (self_message : Message)
    : GuardContext :=
  let groups :=
    match message_info self_message with
    | Some mi => group_info mi
    | None => None
    end in
  let users :=
    match message_info self_message with
    | Some mi => user_info mi
    | None => None
    end in
  match groups with
  | Some gi =>
      let group_id :=
        py_str (py_or (match gi_group_id gi with
                       | Some v => v
                       | None => PyStr []
                       end) (PyStr [])) in
      {| is_group := true;
         group_id := nonempty group_id;
         private_user_id := None |}
  | None =>
      let private_user_id :=
        py_str (py_or (match users with
                       | Some ui =>
                           match ui_user_id ui with
                           | Some v => v
                           | None => PyStr []
                           end
                       | None => PyStr []
                       end) (PyStr [])) in
      {| is_group := false;
         group_id := None;
         private_user_id := nonempty private_user_id |}
  end.

(** [LeaveDeleteGuardCommand._format_result], lines 208-217. *)
Definition _format_result (result : GuardResult) : pystr :=
  «"[ldg] success="» ++ str_of_bool (success result) ++ newline
    ++ «"action="» ++ action_type result ++ newline
    ++ «"target="» ++ opt_or (target_id result) «"N/A"» ++ newline
    ++ «"dry_run="» ++ str_of_bool (dry_run result) ++ newline
    ++ «"executed="» ++ str_of_bool (executed result) ++ newline
    ++ «"detail="» ++ message result.

(** [LeaveDeleteGuardCommand._help_text], lines 219-228. *)
Definition _help_text : pystr :=
  «"leave_delete_guard_plugin 调试命令"» ++ newline
    ++ «"/ldg help"» ++ newline
    ++ «"/ldg leave [force]    # 群聊里退出当前群"» ++ newline
    ++ «"/ldg delete [force]   # 私聊里删除当前私聊对象好友"» ++ newline
    ++ «"/ldg dryrun on|off    # 设置进程内 dry-run"» ++ newline
    ++ «"注意：仅 developer_whitelist 用户可使用。"».

(** [LeaveDeleteGuardCommand.execute], lines 132-189. Its arguments are
    the attributes of [self] it reads and the module's
    [_RUNTIME_DRY_RUN_OVERRIDE]; it yields the new value of the latter,
    what it does to its host, and either the exception it raises or the
    triple it returns. *)
Definition LeaveDeleteGuardCommand_execute (self_message : Message)
    (self_plugin_config : option Payload) (runtime_override : option bool)
    : option bool * list Effect * (PyException + bool * pystr * Z) :=
  let text := strip (opt_or (processed_plain_text self_message) []) in
  let parts := split text in
  let '(policy, logged) := _build_policy self_plugin_config runtime_override in
  let actor_user_id := _get_actor_user_id self_message in
  if negb (bool_decide (actor_user_id ∈ developer_whitelist policy)) then
    let denied := «"无权限：/ldg 仅允许 developer_whitelist 用户使用。"» in
    (runtime_override, logged ++ [SendText denied], inr (false, denied, 2))
  else if (length parts =? 1)%nat
          || ((2 <=? length parts)%nat
              && match parts !! 1%nat with
                 | Some part => eqb (lower part) «"help"»
                 | None => false
                 end) then
    (runtime_override, logged ++ [SendText _help_text],
     inr (true, «"help displayed"», 2))
  else
    match parts !! 1%nat with
    | None => (runtime_override, logged, inl IndexError)
    | Some part =>
        let subcmd := lower part in
        let arg1 :=
          if (3 <=? length parts)%nat
          then match parts !! 2%nat with Some a => lower a | None => [] end
          else [] in
        if (3 <? length parts)%nat then
          let message := «"参数过多，请使用 /ldg help 查看命令格式。"» in
          (runtime_override, logged ++ [SendText message],
           inr (false, message, 2))
        else if eqb subcmd «"dryrun"» then
          if negb (eqb arg1 «"on"» || eqb arg1 «"off"») then
            let message := «"dryrun 命令格式错误，请使用 /ldg dryrun on|off"» in
            (runtime_override, logged ++ [SendText message],
             inr (false, message, 2))
          else
            let message :=
              «"已设置运行时 dry_run="»
                ++ (if eqb arg1 «"on"» then «"ON"» else «"OFF"»)
                ++ «"（仅当前进程有效）"» in
            (_set_runtime_dry_run_override (Some (eqb arg1 «"on"»))
               runtime_override,
             logged ++ [SendText message], inr (true, message, 2))
        else if negb (eqb subcmd «"leave"» || eqb subcmd «"delete"») then
          let message := «"未知子命令，请使用 /ldg help。"» in
          (runtime_override, logged ++ [SendText message],
           inr (false, message, 2))
        else
          match (if truthy arg1 then
                   if negb (eqb arg1 «"force"») then
                     inl (subcmd ++ «" 子命令仅支持可选参数 force"»)
                   else inr true
                 else inr false) with
          | inl message =>
              (runtime_override, logged ++ [SendText message],
               inr (false, message, 2))
          | inr force =>
              let context := _build_context_from_message self_message in
              let result :=
                execute_guard_action subcmd actor_user_id context force
                  (Some («"command:"» ++ text)) «"command"» policy None in
              (runtime_override,
               logged ++ [SendText (_format_result result)],
               inr (success result, message result, 2))
          end
    end.

(** A string that does not begin with white space. *)
Definition starts_clean (s : pystr) : Prop :=
  match s with
  | [] => True
  | c :: _ => is_space c = false
  end.

(** The three ways [execute_guard_action] ends. *)
Inductive Outcome (requested actor : pystr) (ctx : GuardContext)
    (force : bool) (reason : option pystr) (origin : pystr)
    (policy : GuardPolicy) (caller : option NapcatCaller)
    : GuardResult -> Prop :=
  | Rejected r :
      guard_gates requested actor ctx force reason origin policy = inl r ->
      rejection r ->
      Outcome requested actor ctx force reason origin policy caller r
  | DryRun a p t :
      guard_gates requested actor ctx force reason origin policy
        = inr (a, p, t) ->
      get_effective_dry_run (default_dry_run policy) (dry_run_override policy)
        = true ->
      Outcome requested actor ctx force reason origin policy caller
        {| success := true;
           message := «"[dry-run] 已通过校验，将执行 "»
                        ++ normalize_action requested
                        ++ «" -> "» ++ str_of_opt t
                        ++ «"; source="» ++ origin
                        ++ «"; force="» ++ str_of_bool force
                        ++ «"; reason="»
                        ++ str_or (normalize_reason reason) «"N/A"»;
           action_type := normalize_action requested;
           target_id := t;
           source := origin;
           executed := false;
           dry_run := true |}
  | Remote a p t ok detail raw :
      guard_gates requested actor ctx force reason origin policy
        = inr (a, p, t) ->
      get_effective_dry_run (default_dry_run policy) (dry_run_override policy)
        = false ->
      match caller with Some c => c | None => call_napcat end
        (napcat_host policy) (napcat_port policy) (napcat_token policy) a p
        = (ok, detail, raw) ->
      Outcome requested actor ctx force reason origin policy caller
        (if ok then
           {| success := true;
              message := «"执行 "» ++ normalize_action requested
                           ++ «" 成功，目标="» ++ str_of_opt t;
              action_type := normalize_action requested;
              target_id := t;
              source := origin;
              executed := true;
              dry_run := false |}
         else
           {| success := false;
              message := «"执行 "» ++ normalize_action requested
                           ++ «" 失败: "» ++ detail;
              action_type := normalize_action requested;
              target_id := t;
              source := origin;
              executed := false;
              dry_run := false |}).

(** ** Properties *)

Lemma eqb_true (s t : pystr) : eqb s t = true <-> s = t.
Proof. unfold eqb. apply bool_decide_eq_true. Qed.

Lemma eqb_false (s t : pystr) : eqb s t = false <-> s <> t.
Proof. unfold eqb. apply bool_decide_eq_false. Qed.

Lemma eqb_refl (s : pystr) : eqb s s = true.
Proof. now apply eqb_true. Qed.

(** Case analysis on a string comparison of the source, with the
    equality or the disequality it decides left as a hypothesis. *)
Ltac eqb_case s t :=
  let E := fresh "E" in
  destruct (eqb s t) eqn:E; [apply eqb_true in E|apply eqb_false in E].

Lemma str_or_nil (s : pystr) : str_or s [] = s.
Proof. now destruct s. Qed.

Lemma str_or_truthy (s d : pystr) : truthy s = true -> str_or s d = s.
Proof. unfold str_or. now intros ->. Qed.

(** *** The gates, one by one *)

Lemma gate_action_type_pass (action_type na source : pystr) :
  gate_action_type action_type na source = inr tt <->
  na = «"leave"» \/ na = «"delete"».
Proof.
  unfold gate_action_type.
  eqb_case na «"leave"»; eqb_case na «"delete"»; cbn [orb negb];
    split; intros H; try reflexivity; try discriminate; auto.
  destruct H; contradiction.
Qed.

Lemma gate_action_type_reject (action_type na source : pystr) (r : GuardResult) :
  gate_action_type action_type na source = inl r <->
  na <> «"leave"» /\ na <> «"delete"» /\
  r = {| success := false;
         message := «"不支持的动作类型: "» ++ action_type;
         action_type := str_or na action_type;
         target_id := None;
         source := source;
         executed := false;
         dry_run := false |}.
Proof.
  unfold gate_action_type.
  eqb_case na «"leave"»; eqb_case na «"delete"»; cbn [orb negb];
    split; intros H; try discriminate; try tauto.
  - injection H as <-. auto.
  - destruct H as (_ & _ & ->). reflexivity.
Qed.

Lemma leave_ne_delete : «"leave"» <> «"delete"».
Proof. vm_compute. discriminate. Qed.

Lemma gate_context_leave (ctx : GuardContext) (source : pystr) :
  gate_context «"leave"» ctx source =
  if is_group ctx && truthy_opt (group_id ctx) then
    inr («"set_group_leave"»,
         [(«"group_id"», val_of_opt (group_id ctx)); («"is_dismiss"», PyBool false)],
         group_id ctx)
  else
    inl {| success := false;
           message := «"当前不是群聊上下文，拒绝执行退群"»;
           action_type := «"leave"»;
           target_id := None;
           source := source;
           executed := false;
           dry_run := false |}.
Proof.
  unfold gate_context. rewrite eqb_refl.
  now destruct (is_group ctx), (truthy_opt (group_id ctx)).
Qed.

Lemma gate_context_delete (ctx : GuardContext) (source : pystr) :
  gate_context «"delete"» ctx source =
  if is_group ctx then
    inl {| success := false;
           message := «"当前是群聊上下文，拒绝执行删好友"»;
           action_type := «"delete"»;
           target_id := None;
           source := source;
           executed := false;
           dry_run := false |}
  else if truthy_opt (private_user_id ctx) then
    inr («"delete_friend"»,
         [(«"user_id"», val_of_opt (private_user_id ctx))],
         private_user_id ctx)
  else
    inl {| success := false;
           message := «"当前私聊对象缺失，拒绝执行删好友"»;
           action_type := «"delete"»;
           target_id := None;
           source := source;
           executed := false;
           dry_run := false |}.
Proof.
  unfold gate_context.
  assert (eqb «"delete"» «"leave"» = false) as ->
    by (apply eqb_false; intros H; now apply leave_ne_delete).
  now destruct (is_group ctx), (truthy_opt (private_user_id ctx)).
Qed.

Lemma gate_action_type_rejection (action_type na source : pystr) r :
  gate_action_type action_type na source = inl r ->
  rejection r /\ target_id r = None.
Proof.
  unfold gate_action_type.
  destruct (negb _); [|discriminate]. intros [= <-]. now repeat split.
Qed.

Lemma gate_context_rejection (na : pystr) (ctx : GuardContext) (source : pystr) r :
  gate_context na ctx source = inl r ->
  rejection r /\ target_id r = None.
Proof.
  unfold gate_context.
  destruct (eqb na _), (is_group ctx), (truthy_opt (group_id ctx)),
    (truthy_opt (private_user_id ctx)); cbn [negb orb];
    try discriminate; intros [= <-]; now repeat split.
Qed.

Lemma gate_context_target (na : pystr) (ctx : GuardContext) (source : pystr)
    (a : pystr) (p : Payload) (t : option pystr) :
  gate_context na ctx source = inr (a, p, t) ->
  truthy_opt t = true /\
  t = if eqb na «"leave"» then group_id ctx else private_user_id ctx.
Proof.
  unfold gate_context.
  destruct (eqb na _), (is_group ctx), (truthy_opt (group_id ctx)) eqn:Eg,
    (truthy_opt (private_user_id ctx)) eqn:Ep; cbn [negb orb];
    try discriminate; intros [= <- <- <-]; now split.
Qed.

Lemma gate_reason_length_rejection (na nm nr : pystr) (t : option pystr)
    (source : pystr) (policy : GuardPolicy) r :
  gate_reason_length na nm nr t source policy = inl r ->
  rejection r /\ target_id r = t.
Proof.
  unfold gate_reason_length.
  destruct (_ && _); [|discriminate]. intros [= <-]. now repeat split.
Qed.

Lemma gate_force_rejection (na actor : pystr) (force : bool)
    (t : option pystr) (source : pystr) (policy : GuardPolicy) r :
  gate_force na actor force t source policy = inl r ->
  rejection r /\ target_id r = t.
Proof.
  unfold gate_force.
  destruct (force && negb (allow_force policy)).
  - intros [= <-]. now repeat split.
  - destruct (force && negb _); [|discriminate].
    intros [= <-]. now repeat split.
Qed.

(** *** The gates in sequence *)

Lemma guard_gates_inr (action_type actor : pystr) (ctx : GuardContext)
    (force : bool) (reason : option pystr) (source : pystr)
    (policy : GuardPolicy) (a : pystr) (p : Payload) (t : option pystr) :
  guard_gates action_type actor ctx force reason source policy = inr (a, p, t) <->
  gate_action_type action_type (normalize_action action_type) source = inr tt /\
  gate_context (normalize_action action_type) ctx source = inr (a, p, t) /\
  gate_reason_length (normalize_action action_type) (normalize_mode policy)
    (normalize_reason reason) t source policy = inr tt /\
  gate_force (normalize_action action_type) actor force t source policy = inr tt.
Proof.
  unfold guard_gates.
  destruct (gate_action_type _ _ _) as [r1|[]];
    [split; [discriminate|intros (H & _); discriminate]|].
  destruct (gate_context _ _ _) as [r2|[[a' p'] t']];
    [split; [discriminate|intros (_ & H & _); discriminate]|].
  destruct (gate_reason_length _ _ _ t' _ _) as [r4|[]] eqn:E4.
  { split; [discriminate|]. intros (_ & [= <- <- <-] & H & _). congruence. }
  destruct (gate_force _ _ _ t' _ _) as [r5|[]] eqn:E5.
  { split; [discriminate|]. intros (_ & [= <- <- <-] & _ & H). congruence. }
  split.
  - intros [= <- <- <-]. auto.
  - intros (_ & [= <- <- <-] & _). reflexivity.
Qed.

Lemma guard_gates_inl (action_type actor : pystr) (ctx : GuardContext)
    (force : bool) (reason : option pystr) (source : pystr)
    (policy : GuardPolicy) (r : GuardResult) :
  guard_gates action_type actor ctx force reason source policy = inl r <->
  gate_action_type action_type (normalize_action action_type) source = inl r \/
  (gate_action_type action_type (normalize_action action_type) source = inr tt /\
   (gate_context (normalize_action action_type) ctx source = inl r \/
    exists a p t,
      gate_context (normalize_action action_type) ctx source = inr (a, p, t) /\
      (gate_reason_length (normalize_action action_type) (normalize_mode policy)
         (normalize_reason reason) t source policy = inl r \/
       (gate_reason_length (normalize_action action_type) (normalize_mode policy)
          (normalize_reason reason) t source policy = inr tt /\
        gate_force (normalize_action action_type) actor force t source policy
          = inl r)))).
Proof.
  unfold guard_gates.
  destruct (gate_action_type _ _ _) as [r1|[]].
  { split.
    - intros [= ->]. now left.
    - intros [[= ->]|(H & _)]; [reflexivity|discriminate]. }
  destruct (gate_context _ _ _) as [r2|[[a' p'] t']].
  { split.
    - intros [= ->]. right. split; [reflexivity|now left].
    - intros [H|(_ & [[= ->]|(a & p & t & H & _)])];
        [discriminate|reflexivity|discriminate]. }
  destruct (gate_reason_length _ _ _ t' _ _) as [r4|[]] eqn:E4.
  { split.
    - intros [= ->]. right. split; [reflexivity|]. right.
      exists a', p', t'. split; [reflexivity|now left].
    - intros [H|(_ & [H|(a & p & t & [= <- <- <-] & [H|(H & _)])])];
        try discriminate; congruence. }
  destruct (gate_force _ _ _ t' _ _) as [r5|[]] eqn:E5.
  { split.
    - intros [= ->]. right. split; [reflexivity|]. right.
      exists a', p', t'. split; [reflexivity|]. right. now split.
    - intros [H|(_ & [H|(a & p & t & [= <- <- <-] & [H|(_ & H)])])];
        try discriminate; congruence. }
  split; [discriminate|].
  intros [H|(_ & [H|(a & p & t & [= <- <- <-] & [H|(_ & H)])])];
    try discriminate; congruence.
Qed.

Lemma guard_gates_rejection (action_type actor : pystr) (ctx : GuardContext)
    (force : bool) (reason : option pystr) (source : pystr)
    (policy : GuardPolicy) (r : GuardResult) :
  guard_gates action_type actor ctx force reason source policy = inl r ->
  rejection r.
Proof.
  intros H. apply guard_gates_inl in H.
  destruct H as [H|(_ & [H|(a & p & t & _ & [H|(_ & H)])])].
  - now apply gate_action_type_rejection in H.
  - now apply gate_context_rejection in H.
  - now apply gate_reason_length_rejection in H.
  - now apply gate_force_rejection in H.
Qed.

Lemma execute_rejected (action_type actor : pystr) (ctx : GuardContext)
    (force : bool) (reason : option pystr) (source : pystr)
    (policy : GuardPolicy) (caller : option NapcatCaller) (r : GuardResult) :
  guard_gates action_type actor ctx force reason source policy = inl r ->
  execute_guard_action action_type actor ctx force reason source policy caller = r.
Proof. unfold execute_guard_action. now intros ->. Qed.

Lemma execute_failure_flags (action_type actor : pystr) (ctx : GuardContext)
    (force : bool) (reason : option pystr) (source : pystr)
    (policy : GuardPolicy) (caller : option NapcatCaller) :
  let r := execute_guard_action action_type actor ctx force reason source
             policy caller in
  success r = false -> executed r = false /\ dry_run r = false.
Proof.
  unfold execute_guard_action.
  destruct (guard_gates _ _ _ _ _ _ _) as [r|[[a p] t]] eqn:E.
  - apply guard_gates_rejection in E. intros _. apply E.
  - destruct (get_effective_dry_run _ _); [discriminate|].
    destruct (match caller with Some c => c | None => call_napcat end _ _ _ _ _)
      as [[ok detail] raw].
    destruct ok; cbn; [discriminate|auto].
Qed.

(** *** The claims of the specification *)

(** C1. Cross-context guard. A request that normalizes to "leave" in a
    context that is not a group, or whose group id is missing or empty,
    is rejected, and so is a request that normalizes to "delete" in a
    group context, whatever the actor, the force flag, the reason and
    the policy are. The result is the same record in each case: failure,
    nothing executed, no target. For "delete", the rejection of a group
    context and the rejection of a missing private target carry two
    different messages. *)
Theorem cross_context_rejects (action_type actor : pystr) (ctx : GuardContext)
    (force : bool) (reason : option pystr) (source : pystr)
    (policy : GuardPolicy) (caller : option NapcatCaller) :
  let r := execute_guard_action action_type actor ctx force reason source
             policy caller in
  (normalize_action action_type = «"leave"» ->
   is_group ctx = false \/ truthy_opt (group_id ctx) = false ->
   r = {| success := false;
          message := «"当前不是群聊上下文，拒绝执行退群"»;
          action_type := «"leave"»;
          target_id := None;
          source := source;
          executed := false;
          dry_run := false |}) /\
  (normalize_action action_type = «"delete"» ->
   is_group ctx = true ->
   r = {| success := false;
          message := «"当前是群聊上下文，拒绝执行删好友"»;
          action_type := «"delete"»;
          target_id := None;
          source := source;
          executed := false;
          dry_run := false |}) /\
  (normalize_action action_type = «"delete"» ->
   is_group ctx = false ->
   truthy_opt (private_user_id ctx) = false ->
   r = {| success := false;
          message := «"当前私聊对象缺失，拒绝执行删好友"»;
          action_type := «"delete"»;
          target_id := None;
          source := source;
          executed := false;
          dry_run := false |}) /\
  «"当前是群聊上下文，拒绝执行删好友"» <> «"当前私聊对象缺失，拒绝执行删好友"».
Proof.
  intros r. subst r. repeat split.
  - intros Hn Hctx. apply execute_rejected, guard_gates_inl.
    right. split; [apply gate_action_type_pass; auto|]. left.
    rewrite Hn, gate_context_leave.
    destruct Hctx as [-> | ->]; [reflexivity|].
    now rewrite andb_false_r.
  - intros Hn Hctx. apply execute_rejected, guard_gates_inl.
    right. split; [apply gate_action_type_pass; auto|]. left.
    now rewrite Hn, gate_context_delete, Hctx.
  - intros Hn Hctx Hp. apply execute_rejected, guard_gates_inl.
    right. split; [apply gate_action_type_pass; auto|]. left.
    now rewrite Hn, gate_context_delete, Hctx, Hp.
  - vm_compute. discriminate.
Qed.

Lemma gate_reason_length_inl (na nm nr : pystr) (t : option pystr)
    (source : pystr) (policy : GuardPolicy) :
  (exists r, gate_reason_length na nm nr t source policy = inl r) <->
  nm = «"cautious"» /\ len nr < min_reason_length policy.
Proof.
  unfold gate_reason_length.
  eqb_case nm «"cautious"»;
    destruct (Z.ltb_spec (len nr) (min_reason_length policy)) as [Hlt|Hge];
    cbn [andb]; (split; [intros [r Hr]|intros [H1 H2]]); try discriminate;
    try contradiction; try lia.
  - now split.
  - eexists. reflexivity.
Qed.

Lemma gate_reason_length_inr (na nm nr : pystr) (t : option pystr)
    (source : pystr) (policy : GuardPolicy) :
  gate_reason_length na nm nr t source policy = inr tt <->
  ~ (nm = «"cautious"» /\ len nr < min_reason_length policy).
Proof.
  rewrite <- gate_reason_length_inl.
  destruct (gate_reason_length na nm nr t source policy) as [r|[]] eqn:E.
  - split; [discriminate|]. intros H. exfalso. apply H. eauto.
  - split; [|reflexivity]. intros _ [r H]. congruence.
Qed.

Lemma cautious_ne_normal : «"cautious"» <> «"normal"».
Proof. vm_compute. discriminate. Qed.

Lemma normalize_mode_empty (policy : GuardPolicy) :
  mode policy = [] -> normalize_mode policy = «"cautious"».
Proof. unfold normalize_mode. now intros ->. Qed.

(** C4. The reason-length gate rejects exactly when the resolved mode is
    "cautious" and the normalized (stripped) reason has fewer than
    [min_reason_length] characters. Under the mode "normal" every reason
    passes it, the empty one included. Under the mode "cautious" a
    request that normalizes to "delete", in a private context with a
    target, whose normalized reason is empty, fails with the message
    that cites the minimum reason length, for every policy whose minimum
    is positive (as the default, 4, is). *)
Theorem reason_gate_exact (requested actor : pystr) (ctx : GuardContext)
    (force : bool) (reason : option pystr) (origin : pystr)
    (policy : GuardPolicy) (caller : option NapcatCaller)
    (na : pystr) (t : option pystr) :
  ((exists r, gate_reason_length na (normalize_mode policy)
                (normalize_reason reason) t origin policy = inl r) <->
   normalize_mode policy = «"cautious"» /\
   len (normalize_reason reason) < min_reason_length policy) /\
  (normalize_mode policy = «"normal"» ->
   gate_reason_length na (normalize_mode policy) (normalize_reason reason)
     t origin policy = inr tt) /\
  (normalize_action requested = «"delete"» ->
   is_group ctx = false ->
   truthy_opt (private_user_id ctx) = true ->
   normalize_mode policy = «"cautious"» ->
   normalize_reason reason = [] ->
   0 < min_reason_length policy ->
   execute_guard_action requested actor ctx force reason origin policy caller
   = {| success := false;
        message := «"审慎模式拒绝执行：reason 至少 "»
                     ++ str_of_int (min_reason_length policy) ++ «" 个字符"»;
        action_type := «"delete"»;
        target_id := private_user_id ctx;
        source := origin;
        executed := false;
        dry_run := false |}).
Proof.
  split; [apply gate_reason_length_inl|]. split.
  - intros Hm. apply gate_reason_length_inr. intros [Hc _].
    apply cautious_ne_normal. congruence.
  - intros Hn Hg Hp Hm Hr Hmin.
    apply execute_rejected, guard_gates_inl.
    right. split; [apply gate_action_type_pass; auto|]. right.
    rewrite Hn, gate_context_delete, Hg, Hp, Hm, Hr.
    eexists _, _, _. split; [reflexivity|]. left.
    unfold gate_reason_length. rewrite eqb_refl.
    destruct (Z.ltb_spec (len []) (min_reason_length policy)) as [_|Hge];
      [reflexivity|]. change (len []) with 0 in Hge. lia.
Qed.

Lemma gate_force_disabled (na actor : pystr) (t : option pystr)
    (origin : pystr) (policy : GuardPolicy) :
  allow_force policy = false ->
  gate_force na actor true t origin policy
  = inl {| success := false;
           message := «"当前配置禁用了 force"»;
           action_type := na;
           target_id := t;
           source := origin;
           executed := false;
           dry_run := false |}.
Proof. unfold gate_force. now intros ->. Qed.

Lemma gate_force_not_whitelisted (na actor : pystr) (t : option pystr)
    (origin : pystr) (policy : GuardPolicy) :
  allow_force policy = true ->
  actor ∉ developer_whitelist policy ->
  gate_force na actor true t origin policy
  = inl {| success := false;
           message := «"force 仅允许开发者白名单使用"»;
           action_type := na;
           target_id := t;
           source := origin;
           executed := false;
           dry_run := false |}.
Proof.
  unfold gate_force. intros -> Hw. rewrite str_or_nil.
  now rewrite bool_decide_eq_false_2.
Qed.

Lemma gate_force_pass (na actor : pystr) (force : bool) (t : option pystr)
    (origin : pystr) (policy : GuardPolicy) :
  gate_force na actor force t origin policy = inr tt <->
  force = false \/
  (allow_force policy = true /\ actor ∈ developer_whitelist policy).
Proof.
  unfold gate_force. rewrite str_or_nil.
  destruct force; cbn [andb].
  - destruct (allow_force policy); cbn [negb].
    + destruct (bool_decide_reflect (actor ∈ developer_whitelist policy));
        cbn [negb]; split; try discriminate; try tauto.
      intros [H|[_ H]]; [discriminate|contradiction].
    + split; [discriminate|]. intros [H|[H _]]; discriminate.
  - split; auto.
Qed.

(** C5. Once the gates before it have passed, a forced request under a
    policy with [allow_force = false] is rejected with the message that
    force is disabled, whether or not the actor is in the developer
    whitelist; a forced request under [allow_force = true] whose actor is
    not in the whitelist is rejected with the message that force is for
    the whitelist only. The two messages differ. *)
Theorem force_precedence (requested actor : pystr) (ctx : GuardContext)
    (reason : option pystr) (origin : pystr) (policy : GuardPolicy)
    (caller : option NapcatCaller) (a : pystr) (p : Payload)
    (t : option pystr) :
  gate_action_type requested (normalize_action requested) origin = inr tt ->
  gate_context (normalize_action requested) ctx origin = inr (a, p, t) ->
  gate_reason_length (normalize_action requested) (normalize_mode policy)
    (normalize_reason reason) t origin policy = inr tt ->
  let r := execute_guard_action requested actor ctx true reason origin
             policy caller in
  (allow_force policy = false ->
   r = {| success := false;
          message := «"当前配置禁用了 force"»;
          action_type := normalize_action requested;
          target_id := t;
          source := origin;
          executed := false;
          dry_run := false |}) /\
  (allow_force policy = true ->
   actor ∉ developer_whitelist policy ->
   r = {| success := false;
          message := «"force 仅允许开发者白名单使用"»;
          action_type := normalize_action requested;
          target_id := t;
          source := origin;
          executed := false;
          dry_run := false |}) /\
  «"当前配置禁用了 force"» <> «"force 仅允许开发者白名单使用"».
Proof.
  intros H1 H2 H4 r. subst r. repeat split.
  - intros Hallow. apply execute_rejected, guard_gates_inl.
    right. split; [exact H1|]. right. exists a, p, t. split; [exact H2|].
    right. split; [exact H4|]. now apply gate_force_disabled.
  - intros Hallow Hw. apply execute_rejected, guard_gates_inl.
    right. split; [exact H1|]. right. exists a, p, t. split; [exact H2|].
    right. split; [exact H4|]. now apply gate_force_not_whitelisted.
  - vm_compute. discriminate.
Qed.

Lemma execute_dry_run (requested actor : pystr) (ctx : GuardContext)
    (force : bool) (reason : option pystr) (origin : pystr)
    (policy : GuardPolicy) (caller : option NapcatCaller)
    (a : pystr) (p : Payload) (t : option pystr) :
  guard_gates requested actor ctx force reason origin policy = inr (a, p, t) ->
  get_effective_dry_run (default_dry_run policy) (dry_run_override policy)
    = true ->
  execute_guard_action requested actor ctx force reason origin policy caller
  = {| success := true;
       message := «"[dry-run] 已通过校验，将执行 "» ++ normalize_action requested
                    ++ «" -> "» ++ str_of_opt t
                    ++ «"; source="» ++ origin
                    ++ «"; force="» ++ str_of_bool force
                    ++ «"; reason="» ++ str_or (normalize_reason reason) «"N/A"»;
       action_type := normalize_action requested;
       target_id := t;
       source := origin;
       executed := false;
       dry_run := true |}.
Proof. unfold execute_guard_action. now intros -> ->. Qed.

Lemma normalize_action_leave : normalize_action «"leave"» = «"leave"».
Proof. reflexivity. Qed.

(** C6. The effective dry-run flag is the override when there is one,
    [true] or [false], and the default of the policy otherwise. When it
    is [true] and every gate has passed, the result has
    [success = true], [executed = false], [dry_run = true] and the
    resolved target as its [target_id]. In particular an unforced
    "leave" in the group "123", under the mode "normal" with
    [default_dry_run = true] and no override, yields success, nothing
    executed, a dry run and the target "123". *)
Theorem dry_run_precedence (requested actor : pystr) (ctx : GuardContext)
    (force : bool) (reason : option pystr) (origin : pystr)
    (policy : GuardPolicy) (caller : option NapcatCaller)
    (a : pystr) (p : Payload) (t : option pystr) :
  (forall default override,
     get_effective_dry_run default (Some override) = override) /\
  (forall default, get_effective_dry_run default None = default) /\
  (guard_gates requested actor ctx force reason origin policy = inr (a, p, t) ->
   get_effective_dry_run (default_dry_run policy) (dry_run_override policy)
     = true ->
   let r := execute_guard_action requested actor ctx force reason origin
              policy caller in
   success r = true /\ executed r = false /\ dry_run r = true /\
   target_id r = t) /\
  (is_group ctx = true ->
   group_id ctx = Some «"123"» ->
   normalize_mode policy = «"normal"» ->
   default_dry_run policy = true ->
   dry_run_override policy = None ->
   let r := execute_guard_action «"leave"» actor ctx false reason origin
              policy caller in
   success r = true /\ executed r = false /\ dry_run r = true /\
   target_id r = Some «"123"»).
Proof.
  split; [reflexivity|]. split; [reflexivity|]. split.
  - intros Hg Hd r. subst r.
    rewrite (execute_dry_run _ _ _ _ _ _ _ caller _ _ _ Hg Hd). now repeat split.
  - intros Hgrp Hid Hm Hd Ho r. subst r.
    rewrite (execute_dry_run _ _ _ _ _ _ _ caller «"set_group_leave"»
               [(«"group_id"», PyStr «"123"»); («"is_dismiss"», PyBool false)]
               (Some «"123"»)).
    + now repeat split.
    + apply guard_gates_inr. rewrite normalize_action_leave.
      split; [apply gate_action_type_pass; auto|]. split.
      * now rewrite gate_context_leave, Hgrp, Hid.
      * split.
        -- apply gate_reason_length_inr. intros [Hc _].
           apply cautious_ne_normal. congruence.
        -- apply gate_force_pass. now left.
    + now rewrite Hd, Ho.
Qed.

(** C7 (as amended). When the stripped, lowercased action type is neither
    "leave" nor "delete", the evaluator rejects: no success, no target,
    nothing executed, and a message that is the unsupported-action text
    followed by the action type as it was given. The [action_type] of the
    result is the normalized action type when that is not empty, and the
    action type as it was given when the normalized one is empty. *)
Theorem unsupported_action_result (requested actor : pystr)
    (ctx : GuardContext) (force : bool) (reason : option pystr)
    (origin : pystr) (policy : GuardPolicy) (caller : option NapcatCaller) :
  normalize_action requested <> «"leave"» ->
  normalize_action requested <> «"delete"» ->
  let r := execute_guard_action requested actor ctx force reason origin
             policy caller in
  r = {| success := false;
         message := «"不支持的动作类型: "» ++ requested;
         action_type := str_or (normalize_action requested) requested;
         target_id := None;
         source := origin;
         executed := false;
         dry_run := false |} /\
  (normalize_action requested <> [] ->
   action_type r = normalize_action requested) /\
  (normalize_action requested = [] -> action_type r = requested).
Proof.
  intros Hl Hd r.
  assert (r = {| success := false;
                 message := «"不支持的动作类型: "» ++ requested;
                 action_type := str_or (normalize_action requested) requested;
                 target_id := None;
                 source := origin;
                 executed := false;
                 dry_run := false |}) as ->.
  { apply execute_rejected, guard_gates_inl. left.
    now apply gate_action_type_reject. }
  split; [reflexivity|]. cbn [action_type]. split.
  - intros Hne. apply str_or_truthy.
    now destruct (normalize_action requested).
  - now intros ->.
Qed.

Lemma call_napcat_auth (host port token action : pystr) (payload : Payload)
    (status : Z) (body : option PyVal) :
  post (napcat_request host port token action payload) = Response status body ->
  status = 401 \/ status = 403 ->
  call_napcat host port token action payload
  = (false, «"NapCat 鉴权失败(HTTP "» ++ str_of_int status ++ «")"», None).
Proof.
  unfold call_napcat. intros -> [-> | ->]; reflexivity.
Qed.

Lemma call_napcat_ok (host port token action : pystr) (payload : Payload)
    (status : Z) (raw : Payload) :
  post (napcat_request host port token action payload)
    = Response status (Some (PyDict raw)) ->
  200 <= status < 300 ->
  dict_get raw «"status"» = PyStr «"ok"» ->
  call_napcat host port token action payload = (true, «"ok"», Some raw).
Proof.
  unfold call_napcat. intros -> Hs Hok.
  replace ((status =? 401) || (status =? 403)) with false
    by (symmetry; apply orb_false_iff; split; apply Z.eqb_neq; lia).
  replace ((status <? 200) || (status >=? 300)) with false
    by (symmetry; apply orb_false_iff; split;
        [apply Z.ltb_ge|rewrite Z.geb_leb; apply Z.leb_gt]; lia).
  rewrite Hok. unfold py_ne_str. now rewrite eqb_refl.
Qed.

Lemma call_napcat_ok_inv (host port token action : pystr) (payload : Payload)
    (detail : pystr) (r : NapcatRaw) :
  call_napcat host port token action payload = (true, detail, r) ->
  exists status raw,
    post (napcat_request host port token action payload)
      = Response status (Some (PyDict raw)) /\
    200 <= status < 300 /\
    dict_get raw «"status"» = PyStr «"ok"» /\
    detail = «"ok"» /\ r = Some raw.
Proof.
  unfold call_napcat.
  destruct (post _) as [|exc|status body]; try discriminate.
  destruct ((status =? 401) || (status =? 403)); [discriminate|].
  destruct ((status <? 200) || (status >=? 300)) eqn:Es; [discriminate|].
  apply orb_false_iff in Es. destruct Es as [Es1 Es2].
  apply Z.ltb_ge in Es1. rewrite Z.geb_leb in Es2. apply Z.leb_gt in Es2.
  destruct body as [[| | | | |l|raw]|]; try discriminate.
  destruct (dict_get raw «"status"») as [| | | |s| |] eqn:Ed;
    cbn [py_ne_str]; try discriminate.
  eqb_case s «"ok"»; cbn [negb]; [|discriminate]. subst s.
  intros [= <- <-]. exists status, raw. repeat split; auto; lia.
Qed.

Lemma execute_remote (requested actor : pystr) (ctx : GuardContext)
    (force : bool) (reason : option pystr) (origin : pystr)
    (policy : GuardPolicy) (caller : option NapcatCaller)
    (a : pystr) (p : Payload) (t : option pystr)
    (ok : bool) (detail : pystr) (raw : NapcatRaw) :
  guard_gates requested actor ctx force reason origin policy = inr (a, p, t) ->
  get_effective_dry_run (default_dry_run policy) (dry_run_override policy)
    = false ->
  match caller with Some c => c | None => call_napcat end
    (napcat_host policy) (napcat_port policy) (napcat_token policy) a p
    = (ok, detail, raw) ->
  execute_guard_action requested actor ctx force reason origin policy caller
  = if ok then
      {| success := true;
         message := «"执行 "» ++ normalize_action requested ++ «" 成功，目标="»
                      ++ str_of_opt t;
         action_type := normalize_action requested;
         target_id := t;
         source := origin;
         executed := true;
         dry_run := false |}
    else
      {| success := false;
         message := «"执行 "» ++ normalize_action requested ++ «" 失败: "»
                      ++ detail;
         action_type := normalize_action requested;
         target_id := t;
         source := origin;
         executed := false;
         dry_run := false |}.
Proof.
  unfold execute_guard_action. intros -> -> ->. now destruct ok.
Qed.

Lemma execute_executed_inv (requested actor : pystr) (ctx : GuardContext)
    (force : bool) (reason : option pystr) (origin : pystr)
    (policy : GuardPolicy) (caller : option NapcatCaller) :
  executed (execute_guard_action requested actor ctx force reason origin
              policy caller) = true ->
  exists a p t detail raw,
    guard_gates requested actor ctx force reason origin policy = inr (a, p, t) /\
    get_effective_dry_run (default_dry_run policy) (dry_run_override policy)
      = false /\
    match caller with Some c => c | None => call_napcat end
      (napcat_host policy) (napcat_port policy) (napcat_token policy) a p
      = (true, detail, raw).
Proof.
  unfold execute_guard_action.
  destruct (guard_gates _ _ _ _ _ _ _) as [r|[[a p] t]] eqn:E.
  - apply guard_gates_rejection in E. destruct E as (_ & E & _). congruence.
  - destruct (get_effective_dry_run _ _) eqn:Ed; [discriminate|].
    destruct (match caller with Some c => c | None => call_napcat end _ _ _ _ _)
      as [[ok detail] raw] eqn:Ec.
    destruct ok; [|discriminate]. intros _.
    exists a, p, t, detail, raw. auto.
Qed.

(** C8. When the response to the request has status 401 or 403, the
    invoker returns [(False, detail, None)] where [detail] is the
    authentication-failure text with the status in it (the specification
    renders the Chinese text of the source in English), and not the text
    of the generic HTTP error that the next check would produce. The
    evaluator, once its gates have passed and the run is not a dry run,
    wraps this into a result with [success = false] and
    [executed = false]. *)
Theorem auth_failure_reported (requested actor : pystr) (ctx : GuardContext)
    (force : bool) (reason : option pystr) (origin : pystr)
    (policy : GuardPolicy) (a : pystr) (p : Payload) (t : option pystr)
    (host port token action : pystr) (payload : Payload)
    (status : Z) (body : option PyVal) :
  status = 401 \/ status = 403 ->
  let detail := «"NapCat 鉴权失败(HTTP "» ++ str_of_int status ++ «")"» in
  (post (napcat_request host port token action payload) = Response status body ->
   call_napcat host port token action payload = (false, detail, None)) /\
  detail <> «"NapCat HTTP 错误: "» ++ str_of_int status /\
  (guard_gates requested actor ctx force reason origin policy = inr (a, p, t) ->
   get_effective_dry_run (default_dry_run policy) (dry_run_override policy)
     = false ->
   post (napcat_request (napcat_host policy) (napcat_port policy)
           (napcat_token policy) a p) = Response status body ->
   execute_guard_action requested actor ctx force reason origin policy None
   = {| success := false;
        message := «"执行 "» ++ normalize_action requested ++ «" 失败: "»
                     ++ detail;
        action_type := normalize_action requested;
        target_id := t;
        source := origin;
        executed := false;
        dry_run := false |}).
Proof.
  intros Hs detail. split; [|split].
  - intros Hpost. now apply call_napcat_auth with (body := body).
  - subst detail. destruct Hs as [-> | ->]; vm_compute; discriminate.
  - intros Hg Hd Hpost.
    rewrite (execute_remote _ _ _ _ _ _ _ None _ _ _ false detail None Hg Hd);
      [reflexivity|]. now apply call_napcat_auth with (body := body).
Qed.

(** C9. When the response is a 2xx one whose body decodes to a JSON
    object with the string "ok" as its status, the invoker returns
    [(True, "ok", raw)], [raw] being that object, and the evaluator, once
    its gates have passed and the run is not a dry run, returns a result
    with [success = true], [executed = true] and [dry_run = false]. A
    result has [executed = true] on this path only: the gates have
    passed, the run is not a dry run and the caller has reported
    success, which the invoker does for such a response only. *)
Theorem remote_ok_executes (requested actor : pystr) (ctx : GuardContext)
    (force : bool) (reason : option pystr) (origin : pystr)
    (policy : GuardPolicy) (a : pystr) (p : Payload) (t : option pystr)
    (host port token action : pystr) (payload : Payload)
    (status : Z) (raw : Payload) :
  200 <= status < 300 ->
  dict_get raw «"status"» = PyStr «"ok"» ->
  (post (napcat_request host port token action payload)
     = Response status (Some (PyDict raw)) ->
   call_napcat host port token action payload = (true, «"ok"», Some raw)) /\
  (guard_gates requested actor ctx force reason origin policy = inr (a, p, t) ->
   get_effective_dry_run (default_dry_run policy) (dry_run_override policy)
     = false ->
   post (napcat_request (napcat_host policy) (napcat_port policy)
           (napcat_token policy) a p) = Response status (Some (PyDict raw)) ->
   execute_guard_action requested actor ctx force reason origin policy None
   = {| success := true;
        message := «"执行 "» ++ normalize_action requested ++ «" 成功，目标="»
                     ++ str_of_opt t;
        action_type := normalize_action requested;
        target_id := t;
        source := origin;
        executed := true;
        dry_run := false |}) /\
  (forall requested' actor' ctx' force' reason' origin' policy',
     executed (execute_guard_action requested' actor' ctx' force' reason'
                 origin' policy' None) = true ->
     exists a' p' t' status' raw',
       guard_gates requested' actor' ctx' force' reason' origin' policy'
         = inr (a', p', t') /\
       get_effective_dry_run (default_dry_run policy')
         (dry_run_override policy') = false /\
       post (napcat_request (napcat_host policy') (napcat_port policy')
               (napcat_token policy') a' p')
         = Response status' (Some (PyDict raw')) /\
       200 <= status' < 300 /\
       dict_get raw' «"status"» = PyStr «"ok"») /\
  (forall requested' actor' ctx' force' reason' origin' policy' caller,
     executed (execute_guard_action requested' actor' ctx' force' reason'
                 origin' policy' (Some caller)) = true ->
     exists a' p' t' detail' raw',
       guard_gates requested' actor' ctx' force' reason' origin' policy'
         = inr (a', p', t') /\
       get_effective_dry_run (default_dry_run policy')
         (dry_run_override policy') = false /\
       caller (napcat_host policy') (napcat_port policy')
         (napcat_token policy') a' p' = (true, detail', raw')).
Proof.
  intros Hs Hok. split; [|split; [|split]].
  - intros Hpost. now apply call_napcat_ok with (status := status).
  - intros Hg Hd Hpost.
    rewrite (execute_remote _ _ _ _ _ _ _ None _ _ _ true «"ok"» (Some raw)
               Hg Hd); [reflexivity|].
    now apply call_napcat_ok with (status := status).
  - intros requested' actor' ctx' force' reason' origin' policy' He.
    apply execute_executed_inv in He.
    destruct He as (a' & p' & t' & detail' & r' & Hg & Hd & Hc).
    apply call_napcat_ok_inv in Hc.
    destruct Hc as (status' & raw' & Hpost & Hrange & Hstatus & _).
    exists a', p', t', status', raw'. auto.
  - intros requested' actor' ctx' force' reason' origin' policy' caller He.
    apply execute_executed_inv in He. exact He.
Qed.

(** C10. A rejection at the action-type gate or at the cross-context gate
    has no [target_id]; a rejection at the reason-length gate or at the
    force gate has the resolved target as its [target_id]: the group id
    for "leave", the private user id for "delete", which is then a
    non-empty string. So the [target_id] of a rejection is missing
    exactly when the target was not resolved. *)
Theorem rejection_target (requested actor : pystr) (ctx : GuardContext)
    (force : bool) (reason : option pystr) (origin : pystr)
    (policy : GuardPolicy) (caller : option NapcatCaller)
    (rejected : GuardResult) :
  guard_gates requested actor ctx force reason origin policy = inl rejected ->
  let na := normalize_action requested in
  let r := execute_guard_action requested actor ctx force reason origin
             policy caller in
  let early :=
    gate_action_type requested na origin = inl rejected \/
    (gate_action_type requested na origin = inr tt /\
     gate_context na ctx origin = inl rejected) in
  let late (t : option pystr) :=
    gate_action_type requested na origin = inr tt /\
    (exists a p, gate_context na ctx origin = inr (a, p, t)) /\
    (gate_reason_length na (normalize_mode policy) (normalize_reason reason)
       t origin policy = inl rejected \/
     (gate_reason_length na (normalize_mode policy) (normalize_reason reason)
        t origin policy = inr tt /\
      gate_force na actor force t origin policy = inl rejected)) in
  r = rejected /\
  ((early /\ target_id r = None) \/
   (exists t, late t /\ target_id r = t /\ truthy_opt t = true /\
      t = if eqb na «"leave"» then group_id ctx else private_user_id ctx)) /\
  (target_id r = None <-> early).
Proof.
  intros Hg na r early late. subst r.
  rewrite (execute_rejected _ _ _ _ _ _ _ caller _ Hg).
  apply guard_gates_inl in Hg. fold na in Hg.
  split; [reflexivity|].
  destruct Hg as [H|(H1 & [H|(a & p & t & Hc & H)])].
  - assert (target_id rejected = None)
      by now apply gate_action_type_rejection in H.
    subst early. split; [left|]; tauto.
  - assert (target_id rejected = None)
      by now apply gate_context_rejection in H.
    subst early. split; [left|]; tauto.
  - destruct (gate_context_target _ _ _ _ _ _ Hc) as (Ht & Heq).
    assert (Htarget : target_id rejected = t).
    { destruct H as [H|(_ & H)].
      - now apply gate_reason_length_rejection in H.
      - now apply gate_force_rejection in H. }
    split.
    + right. exists t. subst late. cbn beta. eauto 10.
    + rewrite Htarget. subst early. split.
      * intros ->. discriminate.
      * intros [He|(_ & He)]; congruence.
Qed.

(** ** Further properties of [core.py] and [plugin.py] *)

(** *** Stripping *)

Lemma lstrip_starts_clean (s : pystr) : starts_clean (lstrip s).
Proof.
  induction s as [|c s IH]; cbn; [exact I|].
  destruct (is_space c) eqn:E; [exact IH|exact E].
Qed.

Lemma lstrip_fixed (s : pystr) : starts_clean s -> lstrip s = s.
Proof. destruct s as [|c s]; cbn; [reflexivity|]. now intros ->. Qed.

Lemma lstrip_spaces (s : pystr) : forallb is_space s = true -> lstrip s = [].
Proof.
  induction s as [|c s IH]; cbn; [reflexivity|].
  destruct (is_space c); cbn; [exact IH|discriminate].
Qed.

Lemma lstrip_app (s t : pystr) :
  lstrip (s ++ t) = match lstrip s with [] => lstrip t | _ => lstrip s ++ t end.
Proof.
  induction s as [|c s IH]; cbn; [reflexivity|].
  destruct (is_space c); [exact IH|reflexivity].
Qed.

Lemma lstrip_length (s : pystr) : (length (lstrip s) <= length s)%nat.
Proof.
  induction s as [|c s IH]; cbn; [lia|].
  destruct (is_space c); cbn; lia.
Qed.

Lemma forallb_rev_spaces (s : pystr) :
  forallb is_space s = true -> forallb is_space (rev s) = true.
Proof.
  rewrite !forallb_forall. intros H c Hc. apply H. now apply in_rev.
Qed.

Lemma rstrip_cons (c : N) (s : pystr) :
  rstrip (c :: s) =
  match rstrip s with
  | [] => if is_space c then [] else [c]
  | _ => c :: rstrip s
  end.
Proof.
  unfold rstrip. cbn [rev]. rewrite lstrip_app.
  destruct (lstrip (rev s)) as [|d l]; cbn [rev].
  - cbn. now destruct (is_space c).
  - rewrite rev_app_distr. cbn.
    destruct (rev l ++ [d]) eqn:E; [|reflexivity].
    now apply app_eq_nil in E.
Qed.

Lemma rstrip_idempotent (s : pystr) : rstrip (rstrip s) = rstrip s.
Proof.
  unfold rstrip. rewrite rev_involutive.
  now rewrite (lstrip_fixed _ (lstrip_starts_clean _)).
Qed.

Lemma rstrip_starts_clean (s : pystr) : starts_clean s -> starts_clean (rstrip s).
Proof.
  destruct s as [|c s]; [intros _; exact I|]. intros Hc.
  change (is_space c = false) in Hc. rewrite rstrip_cons.
  destruct (rstrip s); [rewrite Hc|]; exact Hc.
Qed.

Lemma strip_starts_clean (s : pystr) : starts_clean (strip s).
Proof. apply rstrip_starts_clean, lstrip_starts_clean. Qed.

Lemma strip_ends_clean (s : pystr) : starts_clean (rev (strip s)).
Proof.
  unfold strip, rstrip. rewrite rev_involutive. apply lstrip_starts_clean.
Qed.

Lemma strip_idempotent (s : pystr) : strip (strip s) = strip s.
Proof.
  unfold strip at 1. rewrite (lstrip_fixed _ (strip_starts_clean s)).
  unfold strip. apply rstrip_idempotent.
Qed.

Lemma strip_length (s : pystr) : (length (strip s) <= length s)%nat.
Proof.
  unfold strip, rstrip. rewrite length_rev.
  etransitivity; [apply lstrip_length|]. rewrite length_rev.
  apply lstrip_length.
Qed.

Lemma strip_padding (before s after : pystr) :
  forallb is_space before = true ->
  forallb is_space after = true ->
  strip (before ++ s ++ after) = strip s.
Proof.
  intros Hb Ha. unfold strip.
  rewrite lstrip_app, (lstrip_spaces _ Hb), lstrip_app.
  destruct (lstrip s) as [|c l] eqn:E.
  - now rewrite (lstrip_spaces _ Ha).
  - unfold rstrip. rewrite rev_app_distr, lstrip_app.
    now rewrite (lstrip_spaces _ (forallb_rev_spaces _ Ha)).
Qed.

Lemma strip_spaces (s : pystr) : forallb is_space s = true -> strip s = [].
Proof. intros H. unfold strip. now rewrite (lstrip_spaces _ H). Qed.

(** *** The evaluator, case by case *)

Lemma guard_gates_resolved (requested actor : pystr) (ctx : GuardContext)
    (force : bool) (reason : option pystr) (origin : pystr)
    (policy : GuardPolicy) (a : pystr) (p : Payload) (t : option pystr) :
  guard_gates requested actor ctx force reason origin policy = inr (a, p, t) ->
  (normalize_action requested = «"leave"» /\
   is_group ctx = true /\ truthy_opt (group_id ctx) = true /\
   a = «"set_group_leave"» /\
   p = [(«"group_id"», val_of_opt (group_id ctx));
        («"is_dismiss"», PyBool false)] /\
   t = group_id ctx) \/
  (normalize_action requested = «"delete"» /\
   is_group ctx = false /\ truthy_opt (private_user_id ctx) = true /\
   a = «"delete_friend"» /\
   p = [(«"user_id"», val_of_opt (private_user_id ctx))] /\
   t = private_user_id ctx).
Proof.
  intros H. apply guard_gates_inr in H. destruct H as (H1 & H2 & _).
  apply gate_action_type_pass in H1. destruct H1 as [Hn|Hn]; rewrite Hn in *.
  - left. rewrite gate_context_leave in H2.
    destruct (is_group ctx), (truthy_opt (group_id ctx)); cbn in H2;
      try discriminate. injection H2 as <- <- <-. auto 10.
  - right. rewrite gate_context_delete in H2.
    destruct (is_group ctx), (truthy_opt (private_user_id ctx)); cbn in H2;
      try discriminate. injection H2 as <- <- <-. auto 10.
Qed.

Lemma execute_outcome (requested actor : pystr) (ctx : GuardContext)
    (force : bool) (reason : option pystr) (origin : pystr)
    (policy : GuardPolicy) (caller : option NapcatCaller) :
  Outcome requested actor ctx force reason origin policy caller
    (execute_guard_action requested actor ctx force reason origin policy
       caller).
Proof.
  destruct (guard_gates requested actor ctx force reason origin policy)
    as [r|[[a p] t]] eqn:Hg.
  - rewrite (execute_rejected _ _ _ _ _ _ _ caller _ Hg).
    apply Rejected; [exact Hg|]. exact (guard_gates_rejection _ _ _ _ _ _ _ _ Hg).
  - destruct (get_effective_dry_run (default_dry_run policy)
                (dry_run_override policy)) eqn:Hd.
    + rewrite (execute_dry_run _ _ _ _ _ _ _ caller _ _ _ Hg Hd).
      now apply DryRun with (a := a) (p := p).
    + destruct (match caller with Some c => c | None => call_napcat end
                  (napcat_host policy) (napcat_port policy)
                  (napcat_token policy) a p) as [[ok detail] raw] eqn:Hc.
      rewrite (execute_remote _ _ _ _ _ _ _ caller _ _ _ _ _ _ Hg Hd Hc).
      now apply Remote with (a := a) (p := p) (raw := raw).
Qed.

Lemma truthy_opt_inv (o : option pystr) :
  truthy_opt o = true -> exists id, o = Some id /\ id <> [].
Proof.
  destruct o as [[|c s]|]; cbn; try discriminate.
  intros _. exists (c :: s). split; [reflexivity|discriminate].
Qed.

Lemma execute_reason_ext (requested actor : pystr) (ctx : GuardContext)
    (force : bool) (reason reason' : option pystr) (origin : pystr)
    (policy : GuardPolicy) (caller : option NapcatCaller) :
  normalize_reason reason = normalize_reason reason' ->
  execute_guard_action requested actor ctx force reason origin policy caller
  = execute_guard_action requested actor ctx force reason' origin policy
      caller.
Proof. unfold execute_guard_action, guard_gates. now intros ->. Qed.

(** *** Properties of [core.py] beyond the claims *)

(** X1. [normalize_reason] is idempotent: normalizing its own result
    changes nothing. *)
Theorem normalize_reason_idempotent (reason : option pystr) :
  normalize_reason (Some (normalize_reason reason)) = normalize_reason reason.
Proof.
  destruct reason as [s|]; cbn [normalize_reason]; [|reflexivity].
  apply strip_idempotent.
Qed.

(** X2. The result of [normalize_reason] neither begins nor ends with a
    white-space character and is never longer than the reason given; a
    reason made of white space only, like a missing one, becomes the
    empty string. *)
Theorem normalize_reason_trimmed (reason : option pystr) :
  (forall c rest, normalize_reason reason = c :: rest -> is_space c = false) /\
  (forall rest c, normalize_reason reason = rest ++ [c] -> is_space c = false) /\
  (forall s, reason = Some s -> len (normalize_reason reason) <= len s) /\
  (forall s, reason = Some s -> forallb is_space s = true ->
             normalize_reason reason = []) /\
  (reason = None -> normalize_reason reason = []).
Proof.
  repeat split.
  - intros c rest H.
    assert (Hc : starts_clean (normalize_reason reason)).
    { destruct reason; [apply strip_starts_clean|exact I]. }
    rewrite H in Hc. exact Hc.
  - intros rest c H.
    assert (Hc : starts_clean (rev (normalize_reason reason))).
    { destruct reason; [apply strip_ends_clean|exact I]. }
    rewrite H, rev_app_distr in Hc. exact Hc.
  - intros s ->. unfold len. cbn [normalize_reason].
    apply inj_le, strip_length.
  - intros s -> Hs. now apply strip_spaces.
  - now intros ->.
Qed.

(** X3. The evaluator reads the reason through [normalize_reason] only:
    white space put before and after a reason changes nothing in the
    result, so padding cannot carry a short reason past the
    reason-length gate. *)
Theorem reason_padding_ignored (requested actor : pystr) (ctx : GuardContext)
    (force : bool) (before s after : pystr) (origin : pystr)
    (policy : GuardPolicy) (caller : option NapcatCaller) :
  forallb is_space before = true ->
  forallb is_space after = true ->
  execute_guard_action requested actor ctx force (Some (before ++ s ++ after))
    origin policy caller
  = execute_guard_action requested actor ctx force (Some s) origin policy
      caller.
Proof.
  intros Hb Ha. apply execute_reason_ext. cbn [normalize_reason].
  now apply strip_padding.
Qed.

(** X4. [parse_bool_like] on a string ignores the white space around it,
    and for a value of any type the default matters only when the value
    decides nothing: either the result is the same under both defaults,
    or it is the default itself. *)
Theorem parse_bool_like_robust (value : PyVal) (before s after : pystr)
    (default : bool) :
  (forallb is_space before = true ->
   forallb is_space after = true ->
   parse_bool_like (PyStr (before ++ s ++ after)) default
   = parse_bool_like (PyStr s) default) /\
  (parse_bool_like value true = parse_bool_like value false \/
   forall d, parse_bool_like value d = d).
Proof.
  split.
  - intros Hb Ha. unfold parse_bool_like. now rewrite strip_padding.
  - destruct value as [|b|n|x|t|l|d]; cbn [parse_bool_like]; auto.
    destruct (existsb _ _); [now left|].
    destruct (existsb _ _); [now left|now right].
Qed.

(** X5. In every result, [success] holds exactly when the action was
    executed or the run was a dry run, and the two never hold
    together. *)
Theorem success_means_executed_or_dry_run (requested actor : pystr)
    (ctx : GuardContext) (force : bool) (reason : option pystr)
    (origin : pystr) (policy : GuardPolicy) (caller : option NapcatCaller) :
  let r := execute_guard_action requested actor ctx force reason origin
             policy caller in
  success r = executed r || dry_run r /\ executed r && dry_run r = false.
Proof.
  intros r. subst r.
  destruct (execute_outcome requested actor ctx force reason origin policy
              caller) as [r Hg (Hs & He & Hd)|a p t Hg Hd|a p t ok detail raw Hg Hd Hc].
  - now rewrite Hs, He, Hd.
  - now split.
  - now destruct ok.
Qed.

(** X6. A successful result never crosses contexts: its target is a
    non-empty identifier, the group id of a group context when the
    action is "leave", the private user id of a private context when it
    is "delete". *)
Theorem success_stays_in_context (requested actor : pystr)
    (ctx : GuardContext) (force : bool) (reason : option pystr)
    (origin : pystr) (policy : GuardPolicy) (caller : option NapcatCaller) :
  let r := execute_guard_action requested actor ctx force reason origin
             policy caller in
  success r = true ->
  exists id,
    id <> [] /\ target_id r = Some id /\
    ((action_type r = «"leave"» /\ is_group ctx = true /\
      group_id ctx = Some id) \/
     (action_type r = «"delete"» /\ is_group ctx = false /\
      private_user_id ctx = Some id)).
Proof.
  intros r. subst r.
  destruct (execute_outcome requested actor ctx force reason origin policy
              caller) as [r Hg (Hs & _)|a p t Hg Hd|a p t ok detail raw Hg Hd Hc].
  - congruence.
  - intros _. cbn [target_id action_type].
    destruct (guard_gates_resolved _ _ _ _ _ _ _ _ _ _ Hg)
      as [(Hn & Hgrp & Ht & _ & _ & ->)|(Hn & Hgrp & Ht & _ & _ & ->)];
      destruct (truthy_opt_inv _ Ht) as (id & Hid & Hne);
      exists id; rewrite Hn, Hid; auto 10.
  - destruct ok; [|discriminate]. intros _. cbn [target_id action_type].
    destruct (guard_gates_resolved _ _ _ _ _ _ _ _ _ _ Hg)
      as [(Hn & Hgrp & Ht & _ & _ & ->)|(Hn & Hgrp & Ht & _ & _ & ->)];
      destruct (truthy_opt_inv _ Ht) as (id & Hid & Hne);
      exists id; rewrite Hn, Hid; auto 10.
Qed.

(** X7. Every result echoes the source tag it was given, and its
    [action_type] is the normalized action type, or the action type as
    given when the normalized one is empty. *)
Theorem result_echoes_request (requested actor : pystr) (ctx : GuardContext)
    (force : bool) (reason : option pystr) (origin : pystr)
    (policy : GuardPolicy) (caller : option NapcatCaller) :
  let r := execute_guard_action requested actor ctx force reason origin
             policy caller in
  source r = origin /\
  action_type r = str_or (normalize_action requested) requested.
Proof.
  intros r. subst r.
  assert (Hvalid : forall a p t,
            guard_gates requested actor ctx force reason origin policy
              = inr (a, p, t) ->
            str_or (normalize_action requested) requested
            = normalize_action requested).
  { intros a p t Hg. apply guard_gates_inr in Hg. destruct Hg as (H1 & _).
    apply gate_action_type_pass in H1. destruct H1 as [-> | ->]; reflexivity. }
  destruct (execute_outcome requested actor ctx force reason origin policy
              caller) as [r Hg _|a p t Hg Hd|a p t ok detail raw Hg Hd Hc].
  - apply guard_gates_inl in Hg.
    destruct Hg as [H|(H1 & [H|(a & p & t & Hc & [H|(_ & H)])])].
    + apply gate_action_type_reject in H. destruct H as (_ & _ & ->).
      now split.
    + apply gate_action_type_pass in H1. unfold gate_context in H.
      destruct (eqb _ _), (is_group ctx), (truthy_opt (group_id ctx)),
        (truthy_opt (private_user_id ctx)); cbn [negb orb] in H;
        try discriminate; injection H as <-; cbn [source action_type];
        (split; [reflexivity|]); destruct H1 as [-> | ->]; reflexivity.
    + apply gate_action_type_pass in H1. unfold gate_reason_length in H.
      destruct (_ && _); [|discriminate]. injection H as <-.
      cbn [source action_type]. split; [reflexivity|].
      destruct H1 as [-> | ->]; reflexivity.
    + apply gate_action_type_pass in H1. unfold gate_force in H.
      destruct (force && negb (allow_force policy));
        [|destruct (force && negb _); [|discriminate]];
        injection H as <-; cbn [source action_type];
        (split; [reflexivity|]); destruct H1 as [-> | ->]; reflexivity.
  - cbn [source action_type]. split; [reflexivity|].
    symmetry. exact (Hvalid _ _ _ Hg).
  - destruct ok; cbn [source action_type]; (split; [reflexivity|]);
      symmetry; exact (Hvalid _ _ _ Hg).
Qed.

(** X8. A request that is not forced is evaluated without regard to the
    force settings: two policies that differ in [allow_force] and in the
    developer whitelist only give the same result. *)
Theorem unforced_ignores_force_settings (requested actor : pystr)
    (ctx : GuardContext) (reason : option pystr) (origin : pystr)
    (caller : option NapcatCaller) (m : pystr) (devs devs' : gset pystr)
    (allow allow' : bool) (dry : bool) (override : option bool)
    (host port token : pystr) (minimum : Z) :
  execute_guard_action requested actor ctx false reason origin
    {| mode := m; developer_whitelist := devs; allow_force := allow;
       default_dry_run := dry; dry_run_override := override;
       napcat_host := host; napcat_port := port; napcat_token := token;
       min_reason_length := minimum |} caller
  = execute_guard_action requested actor ctx false reason origin
      {| mode := m; developer_whitelist := devs'; allow_force := allow';
         default_dry_run := dry; dry_run_override := override;
         napcat_host := host; napcat_port := port; napcat_token := token;
         min_reason_length := minimum |} caller.
Proof.
  unfold execute_guard_action, guard_gates, gate_force, gate_reason_length,
    normalize_mode.
  cbn [mode developer_whitelist allow_force default_dry_run dry_run_override
       napcat_host napcat_port napcat_token min_reason_length andb].
  reflexivity.
Qed.

(** X9. The reason-length gate is monotone in the length of the reason
    (a reason that passes still passes when it is replaced by one at
    least as long), and a minimum that is zero or negative switches the
    gate off under every mode. *)
Theorem reason_gate_monotone (na nm nr nr' : pystr) (t : option pystr)
    (origin : pystr) (policy : GuardPolicy) :
  (len nr <= len nr' ->
   gate_reason_length na nm nr t origin policy = inr tt ->
   gate_reason_length na nm nr' t origin policy = inr tt) /\
  (min_reason_length policy <= 0 ->
   gate_reason_length na nm nr t origin policy = inr tt).
Proof.
  split.
  - rewrite !gate_reason_length_inr. intros Hle Hpass [Hm Hlt].
    apply Hpass. split; [exact Hm|lia].
  - intros Hmin. apply gate_reason_length_inr. intros [_ Hlt].
    unfold len in Hlt. lia.
Qed.

(** X11. What the evaluator asks of the remote end is fixed by the
    action: when the gates pass, the target is a non-empty identifier
    and the remote action and its payload are either "set_group_leave"
    with the group id and [is_dismiss = False], for a "leave" in a group
    context, or "delete_friend" with the user id, for a "delete" in a
    private context. *)
Theorem remote_call_resolved (requested actor : pystr) (ctx : GuardContext)
    (force : bool) (reason : option pystr) (origin : pystr)
    (policy : GuardPolicy) (a : pystr) (p : Payload) (t : option pystr) :
  guard_gates requested actor ctx force reason origin policy = inr (a, p, t) ->
  exists id,
    id <> [] /\ t = Some id /\
    ((normalize_action requested = «"leave"» /\ is_group ctx = true /\
      group_id ctx = Some id /\ a = «"set_group_leave"» /\
      p = [(«"group_id"», PyStr id); («"is_dismiss"», PyBool false)]) \/
     (normalize_action requested = «"delete"» /\ is_group ctx = false /\
      private_user_id ctx = Some id /\ a = «"delete_friend"» /\
      p = [(«"user_id"», PyStr id)])).
Proof.
  intros Hg.
  destruct (guard_gates_resolved _ _ _ _ _ _ _ _ _ _ Hg)
    as [(Hn & Hgrp & Ht & -> & -> & ->)|(Hn & Hgrp & Ht & -> & -> & ->)];
    destruct (truthy_opt_inv _ Ht) as (id & Hid & Hne);
    exists id; rewrite Hid; cbn [val_of_opt]; auto 10.
Qed.

(** *** Properties of [plugin.py] *)

Lemma split_on_single (sep : N) (s : pystr) :
  Forall (fun c => c <> sep) s -> split_on sep s = [s].
Proof.
  induction 1 as [|c s Hc _ IH]; cbn; [reflexivity|].
  apply N.eqb_neq in Hc. now rewrite Hc, IH.
Qed.

Lemma split_on_app (sep : N) (s t : pystr) :
  Forall (fun c => c <> sep) s ->
  split_on sep (s ++ sep :: t) = s :: split_on sep t.
Proof.
  induction 1 as [|c s Hc _ IH]; cbn.
  - now rewrite N.eqb_refl.
  - apply N.eqb_neq in Hc. now rewrite Hc, IH.
Qed.

Lemma split_on_cons (sep : N) (s : pystr) :
  exists part parts, split_on sep s = part :: parts.
Proof.
  induction s as [|c s (part & parts & IH)]; cbn; [eauto|].
  destruct (c =? sep)%N; [eauto|]. rewrite IH. eauto.
Qed.

Lemma strip_fixed (s : pystr) :
  starts_clean s -> starts_clean (rev s) -> strip s = s.
Proof.
  intros Hs Hr. unfold strip, rstrip.
  now rewrite (lstrip_fixed _ Hs), (lstrip_fixed _ Hr), rev_involutive.
Qed.

Lemma rstrip_app_clean (prefix s : pystr) :
  Forall (fun c => is_space c = false) prefix ->
  rstrip (prefix ++ s) = prefix ++ rstrip s.
Proof.
  induction 1 as [|c prefix Hc _ IH]; [reflexivity|].
  cbn [app]. rewrite rstrip_cons, IH, Hc. now destruct (prefix ++ rstrip s).
Qed.

Lemma to_whitelist_elem (values : PyVal) (x : pystr) :
  x ∈ _to_whitelist values <->
  x <> [] /\
  exists l item, values = PyList l /\ In item l /\ strip (py_str item) = x.
Proof.
  unfold _to_whitelist.
  destruct values as [| | | | |l|]; try (split; [set_solver|];
    intros (_ & l' & item & H & _); discriminate).
  rewrite elem_of_list_to_set, list_elem_of_In, filter_In, in_map_iff.
  split.
  - intros ((item & Hx & Hin) & Ht). split; [now destruct x|eauto].
  - intros (Hne & l' & item & [= <-] & Hin & Hx).
    split; [eauto|]. now destruct x.
Qed.

Lemma built_mode (plugin_config : option Payload)
    (runtime_override : option bool) :
  let configured :=
    lower (strip (py_str (_get_nested plugin_config «"security.mode"»
                            (PyStr «"cautious"»)))) in
  mode (fst (_build_policy plugin_config runtime_override))
  = if eqb configured «"normal"» then «"normal"» else «"cautious"».
Proof.
  intros configured. unfold _build_policy. fold configured.
  eqb_case configured «"cautious"»; eqb_case configured «"normal"»;
    cbn [orb negb fst mode]; try reflexivity; congruence.
Qed.

Lemma built_normalize_mode (plugin_config : option Payload)
    (runtime_override : option bool) :
  normalize_mode (fst (_build_policy plugin_config runtime_override))
  = mode (fst (_build_policy plugin_config runtime_override)).
Proof.
  unfold normalize_mode. rewrite built_mode.
  now destruct (eqb _ «"normal"»).
Qed.

Lemma built_fields (plugin_config : option Payload)
    (runtime_override : option bool) :
  let p := fst (_build_policy plugin_config runtime_override) in
  min_reason_length p = 4 /\
  dry_run_override p = runtime_override /\
  developer_whitelist p
  = _to_whitelist (_get_nested plugin_config «"security.developer_whitelist"»
                     (PyList [])).
Proof.
  unfold _build_policy. now destruct (negb _).
Qed.

(** X12. [_get_nested] follows a dotted key one dictionary at a time. A
    key without a dot is looked up in the configuration itself; a key
    [k1.k2] is [k2] looked up in the dictionary stored under [k1]; and
    the default comes back when there is no configuration, when a key
    on the way is missing, or when the value on the way is not a
    dictionary. *)
Theorem get_nested_path (config : Payload) (k1 k2 : pystr) (default : PyVal) :
  Forall (fun c => c <> 46%N) k1 ->
  _get_nested None (k1 ++ «"."» ++ k2) default = default /\
  _get_nested (Some config) k1 default
  = match dict_find config k1 with Some v => v | None => default end /\
  _get_nested (Some config) (k1 ++ «"."» ++ k2) default
  = match dict_find config k1 with
    | Some (PyDict sub) => _get_nested (Some sub) k2 default
    | _ => default
    end.
Proof.
  intros Hk. split; [reflexivity|]. split.
  - unfold _get_nested. rewrite (split_on_single _ _ Hk).
    destruct config as [|entry config]; [reflexivity|].
    cbn [_get_nested_from]. now destruct (dict_find _ k1).
  - unfold _get_nested. change («"."» ++ k2) with (46%N :: k2).
    rewrite (split_on_app _ _ _ Hk).
    destruct (split_on_cons 46 k2) as (part & parts & Hparts).
    rewrite Hparts.
    destruct config as [|entry config]; [reflexivity|].
    cbn [_get_nested_from].
    destruct (dict_find (entry :: config) k1) as [[| | | | | |sub]|];
      try reflexivity.
    destruct sub; reflexivity.
Qed.

(** X13. The whitelist that [_to_whitelist] builds holds exactly the
    stripped texts of the items of the list it is given that are not
    empty once stripped. So the empty identifier is never whitelisted,
    every member is free of surrounding white space, and what is not a
    list gives the empty whitelist. *)
Theorem to_whitelist_members (values : PyVal) (x : pystr) :
  (x ∈ _to_whitelist values <->
   x <> [] /\
   exists l item, values = PyList l /\ In item l /\ strip (py_str item) = x) /\
  ([] ∉ _to_whitelist values) /\
  (x ∈ _to_whitelist values -> strip x = x).
Proof.
  split; [apply to_whitelist_elem|]. split.
  - intros H. apply to_whitelist_elem in H. now destruct H.
  - intros H. apply to_whitelist_elem in H.
    destruct H as (_ & l & item & _ & _ & <-). apply strip_idempotent.
Qed.

(** X14. Every policy that [_build_policy] builds is well formed: its
    mode is "cautious" or "normal", and is "normal" only when the
    configured mode, stripped and lowercased, is "normal"; the evaluator
    resolves it to itself; its minimum reason length is 4; its override
    is the runtime override; the empty identifier is not in its
    whitelist; and a warning is logged exactly when the configured mode
    is neither of the two. *)
Theorem build_policy_well_formed (plugin_config : option Payload)
    (runtime_override : option bool) :
  let configured :=
    lower (strip (py_str (_get_nested plugin_config «"security.mode"»
                            (PyStr «"cautious"»)))) in
  let p := fst (_build_policy plugin_config runtime_override) in
  (mode p = «"cautious"» \/ mode p = «"normal"») /\
  (mode p = «"normal"» <-> configured = «"normal"») /\
  normalize_mode p = mode p /\
  min_reason_length p = 4 /\
  dry_run_override p = runtime_override /\
  ([] ∉ developer_whitelist p) /\
  (snd (_build_policy plugin_config runtime_override) = [] <->
   configured = «"cautious"» \/ configured = «"normal"»).
Proof.
  intros configured p.
  destruct (built_fields plugin_config runtime_override) as (Hmin & Hov & Hw).
  fold p in Hmin, Hov, Hw.
  assert (Hm := built_mode plugin_config runtime_override).
  cbv zeta in Hm. fold configured p in Hm.
  repeat split.
  - rewrite Hm. destruct (eqb _ _); auto.
  - rewrite Hm. eqb_case configured «"normal"»; [auto|].
    intros H. exfalso. now apply cautious_ne_normal.
  - intros H. rewrite Hm, H. now rewrite eqb_refl.
  - apply built_normalize_mode.
  - exact Hmin.
  - exact Hov.
  - rewrite Hw. intros H. apply to_whitelist_elem in H. now destruct H.
  - unfold _build_policy. fold configured.
    eqb_case configured «"cautious"»; eqb_case configured «"normal"»;
      cbn [orb negb snd]; auto; discriminate.
  - unfold _build_policy. fold configured.
    intros [H|H]; rewrite H.
    + reflexivity.
    + reflexivity.
Qed.

(** X15. Without a configuration, or with an empty one, [_build_policy]
    logs nothing and yields the defaults: mode "cautious", an empty
    whitelist, force allowed, no dry run by default, the local remote
    end on port 3000 without a token, and a minimum reason length
    of 4. *)
Theorem build_policy_defaults (plugin_config : option Payload)
    (runtime_override : option bool) :
  plugin_config = None \/ plugin_config = Some [] ->
  _build_policy plugin_config runtime_override
  = ({| mode := «"cautious"»;
        developer_whitelist := ∅;
        allow_force := true;
        default_dry_run := false;
        dry_run_override := runtime_override;
        napcat_host := «"127.0.0.1"»;
        napcat_port := «"3000"»;
        napcat_token := [];
        min_reason_length := 4 |}, []).
Proof. intros [-> | ->]; reflexivity. Qed.

(** X16. Under a policy that [_build_policy] built, the reason-length
    gate is closed by default: it rejects exactly when the normalized
    reason has fewer than 4 characters and the configured mode, stripped
    and lowercased, is anything but "normal". An invalid configured mode
    therefore keeps the gate enforced. *)
Theorem built_policy_reason_gate (plugin_config : option Payload)
    (runtime_override : option bool) (na : pystr) (reason t : option pystr)
    (origin : pystr) :
  let configured :=
    lower (strip (py_str (_get_nested plugin_config «"security.mode"»
                            (PyStr «"cautious"»)))) in
  let p := fst (_build_policy plugin_config runtime_override) in
  (exists r, gate_reason_length na (normalize_mode p) (normalize_reason reason)
               t origin p = inl r) <->
  configured <> «"normal"» /\ len (normalize_reason reason) < 4.
Proof.
  intros configured p. subst p. rewrite gate_reason_length_inl.
  destruct (built_fields plugin_config runtime_override) as (Hmin & _).
  rewrite Hmin, built_normalize_mode.
  assert (Hm := built_mode plugin_config runtime_override).
  cbv zeta in Hm. fold configured in Hm. rewrite Hm.
  eqb_case configured «"normal"».
  - split; intros [H1 H2]; [|contradiction].
    exfalso. apply cautious_ne_normal. now symmetry.
  - tauto.
Qed.

(** X17. The contexts the plugin builds never hold both identifiers: a
    group context has no private user id, a private context has no
    group id, and an identifier read from a message is either missing
    or a non-empty string. *)
Theorem plugin_contexts_exclusive (g : bool) (gid uid : option pystr)
    (self_message : Message) :
  let planned := _build_action_context g gid uid in
  let commanded := _build_context_from_message self_message in
  is_group planned = g /\
  (if g then group_id planned = gid /\ private_user_id planned = None
   else group_id planned = None /\ private_user_id planned = uid) /\
  (if is_group commanded
   then private_user_id commanded = None /\
        (group_id commanded = None \/ truthy_opt (group_id commanded) = true)
   else group_id commanded = None /\
        (private_user_id commanded = None \/
         truthy_opt (private_user_id commanded) = true)).
Proof.
  intros planned commanded. split; [now destruct g|]. split; [now destruct g|].
  subst commanded. unfold _build_context_from_message.
  destruct (match message_info self_message with
            | Some mi => group_info mi | None => None end) as [gi|];
    cbn [is_group group_id private_user_id]; (split; [reflexivity|]);
    unfold nonempty;
    match goal with |- context [truthy ?s] => destruct (truthy s) eqn:E end;
    auto.
Qed.

Lemma execute_success_iff (requested actor : pystr) (ctx : GuardContext)
    (force : bool) (reason : option pystr) (origin : pystr)
    (policy : GuardPolicy) (caller : option NapcatCaller) :
  success (execute_guard_action requested actor ctx force reason origin
             policy caller) = true <->
  exists a p t,
    guard_gates requested actor ctx force reason origin policy = inr (a, p, t) /\
    (get_effective_dry_run (default_dry_run policy) (dry_run_override policy)
       = true \/
     fst (fst (match caller with Some c => c | None => call_napcat end
                 (napcat_host policy) (napcat_port policy)
                 (napcat_token policy) a p)) = true).
Proof.
  destruct (execute_outcome requested actor ctx force reason origin policy
              caller) as [r Hg (Hs & _)|a p t Hg Hd|a p t ok detail raw Hg Hd Hc].
  - rewrite Hs. split; [discriminate|]. intros (a & p & t & H & _). congruence.
  - split; [|reflexivity]. intros _. exists a, p, t. auto.
  - split.
    + destruct ok; [|discriminate]. intros _. exists a, p, t.
      split; [exact Hg|]. right. now rewrite Hc.
    + intros (a' & p' & t' & Hg' & [H|H]); [congruence|].
      rewrite Hg in Hg'. injection Hg' as <- <- <-.
      rewrite Hc in H. cbn in H. now rewrite H.
Qed.

Lemma normalize_reason_clean (reason : option pystr) :
  starts_clean (normalize_reason reason) /\
  starts_clean (rev (normalize_reason reason)).
Proof.
  destruct reason; cbn [normalize_reason];
    [split; [apply strip_starts_clean|apply strip_ends_clean]|now split].
Qed.

Lemma normalize_reason_str_or (r1 r2 : option pystr) :
  normalize_reason
    (Some (str_or (normalize_reason r1) (normalize_reason r2)))
  = str_or (normalize_reason r1) (normalize_reason r2).
Proof.
  cbn [normalize_reason]. unfold str_or.
  destruct (truthy (normalize_reason r1));
    apply strip_fixed; apply normalize_reason_clean.
Qed.

Lemma normalize_action_delete : normalize_action «"delete"» = «"delete"».
Proof. reflexivity. Qed.

(** X18. The planner action succeeds exactly when the identifier of the
    current chat (the group id in a group, the user id otherwise) is
    present and not empty, the reason (the one of the action data, or
    else the planner's reasoning, normalized) is not shorter than 4
    characters under a cautious policy, and either the run is a dry run
    or the remote call, made for that very chat, succeeds. The force
    settings and the action data play no other part: the planner can
    neither force an action nor aim one at another chat. *)
Theorem planner_succeeds_iff (self_log_prefix : pystr)
    (self_action_data : Payload) (self_action_reasoning : PyVal)
    (self_plugin_config : option Payload) (self_is_group : bool)
    (self_group_id self_user_id : option pystr)
    (runtime_override : option bool) :
  let policy := fst (_build_policy self_plugin_config runtime_override) in
  let reason :=
    str_or (normalize_reason (reason_of (dict_get self_action_data «"reason"»)))
           (normalize_reason (reason_of self_action_reasoning)) in
  let id := if self_is_group then self_group_id else self_user_id in
  let remote_action :=
    if self_is_group then «"set_group_leave"» else «"delete_friend"» in
  let payload :=
    if self_is_group
    then [(«"group_id"», val_of_opt self_group_id);
          («"is_dismiss"», PyBool false)]
    else [(«"user_id"», val_of_opt self_user_id)] in
  fst (fst (LeaveDeleteGuardAction_execute self_log_prefix self_action_data
              self_action_reasoning self_plugin_config self_is_group
              self_group_id self_user_id runtime_override)) = true <->
  truthy_opt id = true /\
  ~ (mode policy = «"cautious"» /\ len reason < 4) /\
  (get_effective_dry_run (default_dry_run policy) runtime_override = true \/
   fst (fst (call_napcat (napcat_host policy) (napcat_port policy)
               (napcat_token policy) remote_action payload)) = true).
Proof.
  intros policy reason id remote_action payload.
  unfold LeaveDeleteGuardAction_execute. fold reason.
  destruct (_build_policy self_plugin_config runtime_override)
    as [built logged] eqn:Hb.
  assert (Hp : built = fst (_build_policy self_plugin_config runtime_override))
    by now rewrite Hb.
  subst policy. cbn [fst]. rewrite Hp. clear Hb Hp built.
  set (policy := fst (_build_policy self_plugin_config runtime_override)).
  destruct (built_fields self_plugin_config runtime_override)
    as (Hmin & Hov & _). fold policy in Hmin, Hov.
  assert (Hnm : normalize_mode policy = mode policy)
    by apply built_normalize_mode.
  rewrite execute_success_iff, Hov.
  assert (Hreason : normalize_reason (Some reason) = reason)
    by apply normalize_reason_str_or.
  assert (Hgate4 : forall na t origin,
            gate_reason_length na (normalize_mode policy)
              (normalize_reason (Some reason)) t origin policy = inr tt <->
            ~ (mode policy = «"cautious"» /\ len reason < 4)).
  { intros. now rewrite gate_reason_length_inr, Hnm, Hreason, Hmin. }
  assert (Hgate5 : forall na actor t origin,
            gate_force na actor false t origin policy = inr tt).
  { intros. apply gate_force_pass. now left. }
  subst id remote_action payload.
  destruct self_is_group; cbn [_build_action_context is_group].
  - split.
    + intros (a & p & t & Hg & Hrun). apply guard_gates_inr in Hg.
      rewrite normalize_action_leave, gate_context_leave in Hg.
      cbn [is_group group_id andb] in Hg.
      destruct Hg as (_ & H2 & H4 & _).
      destruct (truthy_opt self_group_id); [|discriminate].
      injection H2 as <- <- <-. apply Hgate4 in H4. auto.
    + intros (Hid & Hlen & Hrun). eexists _, _, _. split; [|exact Hrun].
      apply guard_gates_inr. rewrite normalize_action_leave, gate_context_leave.
      cbn [is_group group_id andb]. rewrite Hid.
      split; [apply gate_action_type_pass; auto|].
      split; [reflexivity|]. split; [now apply Hgate4|apply Hgate5].
  - split.
    + intros (a & p & t & Hg & Hrun). apply guard_gates_inr in Hg.
      rewrite normalize_action_delete, gate_context_delete in Hg.
      cbn [is_group private_user_id] in Hg.
      destruct Hg as (_ & H2 & H4 & _).
      destruct (truthy_opt self_user_id); [|discriminate].
      injection H2 as <- <- <-. apply Hgate4 in H4. auto.
    + intros (Hid & Hlen & Hrun). eexists _, _, _. split; [|exact Hrun].
      apply guard_gates_inr.
      rewrite normalize_action_delete, gate_context_delete.
      cbn [is_group private_user_id]. rewrite Hid.
      split; [apply gate_action_type_pass; auto|].
      split; [reflexivity|]. split; [now apply Hgate4|apply Hgate5].
Qed.

Lemma lstrip_nil_inv (s : pystr) : lstrip s = [] -> forallb is_space s = true.
Proof.
  induction s as [|c s IH]; cbn; [reflexivity|].
  destruct (is_space c); [exact IH|discriminate].
Qed.

Lemma strip_nil_iff (s : pystr) : strip s = [] <-> forallb is_space s = true.
Proof.
  split; [|apply strip_spaces].
  unfold strip. intros H. apply lstrip_nil_inv.
  assert (Hc := lstrip_starts_clean s).
  destruct (lstrip s) as [|c l]; [reflexivity|].
  change (is_space c = false) in Hc.
  rewrite rstrip_cons, Hc in H. now destruct (rstrip l).
Qed.

Lemma split_nil_iff (s : pystr) : split s = [] <-> forallb is_space s = true.
Proof.
  induction s as [|c s IH]; cbn [split forallb]; [tauto|].
  destruct (is_space c); cbn [andb]; [exact IH|].
  split; [|discriminate].
  destruct s as [|d s]; [discriminate|].
  destruct (is_space d); [discriminate|].
  now destruct (split (d :: s)).
Qed.

Lemma split_strip_nil (s : pystr) :
  split (strip s) = [] <-> forallb is_space s = true.
Proof.
  split; intros H.
  - apply strip_nil_iff. apply split_nil_iff in H.
    assert (Hc := strip_starts_clean s).
    destruct (strip s) as [|c l]; [reflexivity|].
    change (is_space c = false) in Hc. cbn in H. now rewrite Hc in H.
  - apply strip_nil_iff in H. now rewrite H.
Qed.

(** X19. The command handler turns away whoever is not in the developer
    whitelist of the policy it built, and so whoever has no identifier:
    it sends the denial, returns failure, leaves the runtime override as
    it is, and neither evaluates nor calls anything. *)
Theorem command_denied (self_message : Message)
    (self_plugin_config : option Payload) (runtime_override : option bool) :
  let built := _build_policy self_plugin_config runtime_override in
  let denied := «"无权限：/ldg 仅允许 developer_whitelist 用户使用。"» in
  _get_actor_user_id self_message = [] \/
  _get_actor_user_id self_message ∉ developer_whitelist (fst built) ->
  LeaveDeleteGuardCommand_execute self_message self_plugin_config
    runtime_override
  = (runtime_override, snd built ++ [SendText denied], inr (false, denied, 2)).
Proof.
  intros built denied H.
  assert (Hout : _get_actor_user_id self_message
                 ∉ developer_whitelist (fst built)).
  { destruct H as [H|H]; [|exact H]. rewrite H.
    destruct (built_fields self_plugin_config runtime_override) as (_ & _ & Hw).
    subst built. rewrite Hw. intros Hin. apply to_whitelist_elem in Hin.
    now destruct Hin. }
  unfold LeaveDeleteGuardCommand_execute. fold built.
  destruct built as [policy logged]. cbn [fst snd] in *.
  now rewrite bool_decide_eq_false_2.
Qed.

(** X20. The command handler raises [IndexError] exactly when the sender
    is whitelisted and the text of the message is missing, empty or made
    of white space only; it has then sent nothing and has left the
    runtime override as it was. *)
Theorem command_raises_on_blank (self_message : Message)
    (self_plugin_config : option Payload) (runtime_override : option bool) :
  let built := _build_policy self_plugin_config runtime_override in
  let run := LeaveDeleteGuardCommand_execute self_message self_plugin_config
               runtime_override in
  (snd run = inl IndexError <->
   _get_actor_user_id self_message ∈ developer_whitelist (fst built) /\
   forallb is_space (opt_or (processed_plain_text self_message) []) = true) /\
  (snd run = inl IndexError -> run = (runtime_override, snd built, inl IndexError)).
Proof.
  intros built run. subst run.
  unfold LeaveDeleteGuardCommand_execute. fold built.
  destruct built as [policy logged]. cbn [fst snd].
  rewrite <- split_strip_nil.
  destruct (bool_decide_reflect
              (_get_actor_user_id self_message ∈ developer_whitelist policy))
    as [Hin|Hout]; cbn [negb].
  2: { cbn [snd]. split; [|discriminate]. split; [discriminate|tauto]. }
  destruct (split (strip (opt_or (processed_plain_text self_message) [])))
    as [|p0 [|p1 rest]]; cbn [length Nat.eqb Nat.leb orb andb lookup list_lookup].
  - cbn [snd]. split; [tauto|reflexivity].
  - cbn [snd]. split; [|discriminate]. split; [discriminate|].
    intros [_ H]. discriminate.
  - repeat match goal with
           | |- context [if ?c then _ else _] => destruct c
           | |- context [match ?c with inl _ => _ | inr _ => _ end] => destruct c
           end; cbn [snd];
      (split; [split; [discriminate|intros [_ E]; discriminate]|discriminate]).
Qed.

(** X21. The runtime override is set by the command "dryrun on" or
    "dryrun off" of a whitelisted sender, and by nothing else the
    command handler does: such a command stores [True] or [False] and
    reports it, and whenever the handler leaves the override different
    from what it was, the sender was whitelisted and the text was that
    command. *)
Theorem command_dryrun_override (self_message : Message)
    (self_plugin_config : option Payload) (runtime_override : option bool)
    (p0 p1 p2 : pystr) (b : bool) :
  let built := _build_policy self_plugin_config runtime_override in
  let text := strip (opt_or (processed_plain_text self_message) []) in
  let run := LeaveDeleteGuardCommand_execute self_message self_plugin_config
               runtime_override in
  let reported :=
    «"已设置运行时 dry_run="» ++ (if b then «"ON"» else «"OFF"»)
      ++ «"（仅当前进程有效）"» in
  (_get_actor_user_id self_message ∈ developer_whitelist (fst built) ->
   split text = [p0; p1; p2] ->
   lower p1 = «"dryrun"» ->
   lower p2 = (if b then «"on"» else «"off"») ->
   run = (Some b, snd built ++ [SendText reported], inr (true, reported, 2))) /\
  (fst (fst run) <> runtime_override ->
   _get_actor_user_id self_message ∈ developer_whitelist (fst built) /\
   exists (q0 q1 q2 : pystr) (c : bool),
     split text = [q0; q1; q2] /\
     lower q1 = «"dryrun"» /\
     lower q2 = (if c then «"on"» else «"off"») /\
     fst (fst run) = Some c).
Proof.
  intros built text run reported. subst run reported.
  unfold LeaveDeleteGuardCommand_execute. fold built text.
  destruct built as [policy logged]. cbn [fst snd].
  split.
  - intros Hin Hsplit Hp1 Hp2.
    rewrite bool_decide_eq_true_2 by exact Hin. rewrite Hsplit.
    cbn [negb length Nat.eqb Nat.leb Nat.ltb orb andb lookup list_lookup].
    rewrite Hp1, Hp2. unfold _set_runtime_dry_run_override.
    now destruct b.
  - destruct (bool_decide_reflect
                (_get_actor_user_id self_message ∈ developer_whitelist policy))
      as [Hin|Hout]; cbn [negb fst]; [|congruence].
    destruct (split text) as [|q0 [|q1 [|q2 [|q3 rest]]]];
      cbn [length Nat.eqb Nat.leb Nat.ltb orb andb lookup list_lookup];
      repeat match goal with
             | |- context [if ?c then _ else _] => destruct c eqn:?
             | |- context [match ?c with inl _ => _ | inr _ => _ end] =>
                 destruct c eqn:?
             end;
      cbn [fst]; try congruence;
      try match goal with
          | E : eqb [] _ = true |- _ => vm_compute in E; discriminate E
          | E : negb (false || eqb [] _) = false |- _ =>
              vm_compute in E; discriminate E
          end;
      intros _; (split; [exact Hin|]); unfold _set_runtime_dry_run_override.
    + exists q0, q1, q2, true.
      split; [reflexivity|]. split; [now apply eqb_true|].
      split; [now apply eqb_true|reflexivity].
    + exists q0, q1, q2, false.
      split; [reflexivity|]. split; [now apply eqb_true|].
      split; [|reflexivity]. apply eqb_true.
      match goal with
      | E : negb (false || ?x) = false |- _ =>
          cbn [orb] in E; apply negb_false_iff in E; exact E
      end.
Qed.

(** X22. In a policy built while the runtime override is set, the
    override decides: the effective dry-run flag is the override,
    whatever the configured default is, so under an override of [True]
    no request is executed, and under [False] none is a dry run. *)
Theorem runtime_override_wins (self_plugin_config : option Payload)
    (b : bool) (requested actor : pystr) (ctx : GuardContext) (force : bool)
    (reason : option pystr) (origin : pystr) (caller : option NapcatCaller) :
  let p := fst (_build_policy self_plugin_config (Some b)) in
  let r := execute_guard_action requested actor ctx force reason origin p
             caller in
  get_effective_dry_run (default_dry_run p) (dry_run_override p) = b /\
  (executed r = true -> b = false) /\
  (dry_run r = true -> b = true).
Proof.
  intros p r.
  destruct (built_fields self_plugin_config (Some b)) as (_ & Hov & _).
  fold p in Hov.
  assert (Hd : get_effective_dry_run (default_dry_run p) (dry_run_override p)
               = b) by now rewrite Hov.
  split; [exact Hd|]. subst r.
  destruct (execute_outcome requested actor ctx force reason origin p caller)
    as [r Hg (_ & He & Hdr)|a q t Hg Hd'|a q t ok detail raw Hg Hd' Hc].
  - rewrite He, Hdr. split; discriminate.
  - cbn. split; [discriminate|]. congruence.
  - destruct ok; cbn; split; try discriminate; congruence.
Qed.

(** X23. A request that the command handler passes to the evaluator is
    never stopped at the reason-length gate: its reason is the text of
    the command behind the prefix "command:", at least 8 characters
    once normalized, and a built policy asks for 4. *)
Theorem command_reason_passes (self_plugin_config : option Payload)
    (runtime_override : option bool) (text na : pystr) (t : option pystr)
    (origin : pystr) :
  let p := fst (_build_policy self_plugin_config runtime_override) in
  8 <= len (normalize_reason (Some («"command:"» ++ strip text))) /\
  gate_reason_length na (normalize_mode p)
    (normalize_reason (Some («"command:"» ++ strip text))) t origin p = inr tt.
Proof.
  intros p.
  assert (Hlen : 8 <= len (normalize_reason
                             (Some («"command:"» ++ strip text)))).
  { cbn [normalize_reason]. unfold strip at 1.
    change «"command:"» with [99; 111; 109; 109; 97; 110; 100; 58]%N.
    rewrite lstrip_fixed by reflexivity.
    rewrite rstrip_app_clean by (repeat constructor).
    unfold len. rewrite length_app. cbn [length]. lia. }
  split; [exact Hlen|]. apply gate_reason_length_inr.
  destruct (built_fields self_plugin_config runtime_override) as (Hmin & _).
  fold p in Hmin. rewrite Hmin. lia.
Qed.

(** X24. Whenever the command handler returns, it has sent exactly one
    text to the chat, after whatever the policy builder logged, and the
    third component of what it returns is 2. *)
Theorem command_sends_one_text (self_message : Message)
    (self_plugin_config : option Payload) (runtime_override : option bool)
    (ok : bool) (detail : pystr) (code : Z) :
  let built := _build_policy self_plugin_config runtime_override in
  let run := LeaveDeleteGuardCommand_execute self_message self_plugin_config
               runtime_override in
  snd run = inr (ok, detail, code) ->
  code = 2 /\ exists shown, snd (fst run) = snd built ++ [SendText shown].
Proof.
  intros built run. subst run.
  unfold LeaveDeleteGuardCommand_execute. fold built.
  destruct built as [policy logged]. cbn [fst snd].
  repeat match goal with
         | |- context [if ?c then _ else _] => destruct c
         | |- context [match ?c with inl _ => _ | inr _ => _ end] => destruct c
         | |- context [match ?c with Some _ => _ | None => _ end] => destruct c
         end;
    cbn [fst snd]; try discriminate; intros [= _ _ <-]; eauto.
Qed.

(** *** The mode of the policy *)

Lemma forallb_lstrip (P : N -> bool) (s : pystr) :
  forallb P s = true -> forallb P (lstrip s) = true.
Proof.
  induction s as [|c s IH]; cbn [lstrip forallb]; [reflexivity|].
  intros H. apply andb_true_iff in H. destruct H as [Hc Hs].
  destruct (is_space c); [now apply IH|]. cbn [forallb]. now rewrite Hc, Hs.
Qed.

Lemma forallb_rev (P : N -> bool) (s : pystr) :
  forallb P s = true -> forallb P (rev s) = true.
Proof.
  rewrite !forallb_forall. intros H c Hc. apply H. now apply in_rev.
Qed.

Lemma forallb_strip (P : N -> bool) (s : pystr) :
  forallb P s = true -> forallb P (strip s) = true.
Proof.
  intros H. unfold strip, rstrip.
  now apply forallb_rev, forallb_lstrip, forallb_rev, forallb_lstrip.
Qed.

Lemma is_space_range (c : N) : is_space c = true -> (c <= 32 \/ 133 <= c)%N.
Proof.
  unfold is_space. intros H.
  repeat (apply orb_true_iff in H; destruct H as [H|H]);
    try (apply andb_true_iff in H; destruct H as [H1 H2];
         apply N.leb_le in H1, H2; lia);
    apply N.eqb_eq in H; lia.
Qed.

Lemma letter_not_space (c : N) :
  (97 <= ascii_lower_char c <= 122)%N -> is_space c = false.
Proof.
  intros H. destruct (is_space c) eqn:E; [|reflexivity].
  apply is_space_range in E. unfold ascii_lower_char in H.
  destruct ((65 <=? c) && (c <=? 90))%N eqn:Eu; [|lia].
  apply andb_true_iff in Eu. destruct Eu as [E1 E2].
  apply N.leb_le in E1, E2. lia.
Qed.

Lemma cautious_spelling_clean (m : pystr) :
  map ascii_lower_char m = «"cautious"» -> strip m = m /\ m <> [].
Proof.
  change «"cautious"» with [99; 97; 117; 116; 105; 111; 117; 115]%N.
  destruct m as [|c0 [|c1 [|c2 [|c3 [|c4 [|c5 [|c6 [|c7 [|c8 m]]]]]]]]];
    try discriminate.
  intros [= H0 H1 H2 H3 H4 H5 H6 H7]. split; [|discriminate].
  apply strip_fixed; cbn [rev app starts_clean]; apply letter_not_space; lia.
Qed.

(** C3 (as amended). The evaluator resolves the mode of the policy by
    stripping and lowercasing it, and puts its default "cautious" in the
    place of the empty mode string only: the resolved mode of a
    non-empty mode is its stripped, lowercased form, which for a mode of
    ASCII characters is the stripped mode with [A-Z] turned into [a-z];
    so every spelling of "cautious" in either case, with white space
    around it, resolves to "cautious". The reason-length gate of step 4
    rejects exactly when the resolved mode is the literal "cautious" and
    the normalized reason is shorter than the minimum; under every other
    resolved mode, "normal" or an invalid non-empty string alike, every
    reason passes it. *)
Theorem mode_resolution (na : pystr) (reason t : option pystr)
    (source : pystr) (policy : GuardPolicy) :
  (mode policy = [] -> normalize_mode policy = «"cautious"») /\
  (mode policy <> [] -> normalize_mode policy = lower (strip (mode policy))) /\
  (mode policy <> [] -> forallb is_ascii (mode policy) = true ->
   normalize_mode policy = map ascii_lower_char (strip (mode policy))) /\
  (forall before m after,
     forallb is_space before = true ->
     forallb is_space after = true ->
     forallb is_ascii m = true ->
     map ascii_lower_char m = «"cautious"» ->
     mode policy = before ++ m ++ after ->
     normalize_mode policy = «"cautious"») /\
  ((exists r, gate_reason_length na (normalize_mode policy)
                (normalize_reason reason) t source policy = inl r) <->
   normalize_mode policy = «"cautious"» /\
   len (normalize_reason reason) < min_reason_length policy) /\
  (mode policy <> [] -> lower (strip (mode policy)) <> «"cautious"» ->
   gate_reason_length na (normalize_mode policy) (normalize_reason reason)
     t source policy = inr tt).
Proof.
  assert (Hresolved : mode policy <> [] ->
                      normalize_mode policy = lower (strip (mode policy))).
  { intros Hne. unfold normalize_mode.
    rewrite str_or_truthy; [reflexivity|]. now destruct (mode policy). }
  split; [apply normalize_mode_empty|]. split; [exact Hresolved|].
  split; [|split; [|split]].
  - intros Hne Hascii. rewrite (Hresolved Hne). unfold lower.
    now rewrite (forallb_strip _ _ Hascii).
  - intros before m after Hb Ha Hascii Hm Hmode.
    destruct (cautious_spelling_clean m Hm) as (Hclean & Hne).
    rewrite Hresolved.
    + rewrite Hmode, (strip_padding _ _ _ Hb Ha), Hclean. unfold lower.
      now rewrite Hascii.
    + rewrite Hmode. intros H. apply app_eq_nil in H. destruct H as [_ H].
      apply app_eq_nil in H. now destruct H.
  - apply gate_reason_length_inl.
  - intros Hne Hm. apply gate_reason_length_inr. intros [Hc _].
    apply Hm. now rewrite <- (Hresolved Hne).
Qed.

(** *** The exceptions of the remote call *)

Lemma call_napcat_or_raise_handled (host port token action : pystr)
    (payload : Payload) :
  call_napcat_or_raise (fun req => Handled (post req)) host port token action
    payload
  = inr (call_napcat host port token action payload).
Proof.
  unfold call_napcat_or_raise, call_napcat.
  destruct (post _) as [|exc|status body]; try reflexivity.
  destruct ((status =? 401) || (status =? 403)); [reflexivity|].
  destruct ((status <? 200) || (status >=? 300)); [reflexivity|].
  destruct body as [[| | | | |l|raw]|]; try reflexivity.
  now destruct (py_ne_str _ _).
Qed.

Lemma execute_or_raise_handled (requested actor : pystr) (ctx : GuardContext)
    (force : bool) (reason : option pystr) (origin : pystr)
    (policy : GuardPolicy) (caller : option NapcatCaller) :
  execute_guard_action_or_raise (fun req => Handled (post req)) requested
    actor ctx force reason origin policy
    (option_map (fun (c : NapcatCaller) h p t a payload =>
                   inr (c h p t a payload)) caller)
  = inr (execute_guard_action requested actor ctx force reason origin policy
           caller).
Proof.
  unfold execute_guard_action_or_raise, execute_guard_action.
  destruct (guard_gates _ _ _ _ _ _ _) as [r|[[a p] t]]; [reflexivity|].
  destruct (get_effective_dry_run _ _); [reflexivity|].
  destruct caller as [c|]; cbn [option_map].
  - destruct (c _ _ _ _ _) as [[ok detail] raw]. now destruct ok.
  - rewrite call_napcat_or_raise_handled.
    destruct (call_napcat _ _ _ _ _) as [[ok detail] raw]. now destruct ok.
Qed.


(** X10. The invoker hands back the decoded response exactly when the
    response has a 2xx status and a body that decodes to a JSON object,
    whatever the status field of that object says; a timeout, a request
    error, an error status, a body whose decoding fails with
    [ValueError] and a body that is not an object give [None]. It
    raises exactly when the exchange ends with an exception that its
    handlers do not catch, and it raises that exception. *)
Theorem call_napcat_raw (exchange : HttpRequest -> Exchange)
    (host port token action : pystr) (payload raw : Payload) :
  ((exists ok detail,
      call_napcat_or_raise exchange host port token action payload
      = inr (ok, detail, Some raw)) <->
   exists status,
     exchange (napcat_request host port token action payload)
       = Handled (Response status (Some (PyDict raw))) /\
     200 <= status < 300) /\
  (forall exc,
     call_napcat_or_raise exchange host port token action payload = inl exc <->
     exchange (napcat_request host port token action payload) = Unhandled exc).
Proof.
  unfold call_napcat_or_raise.
  destruct (exchange _) as [[|text|status body]|raised].
  - split.
    + split; [intros (ok & detail & H)|intros (st & H & _)]; discriminate.
    + intros exc. split; discriminate.
  - split.
    + split; [intros (ok & detail & H)|intros (st & H & _)]; discriminate.
    + intros exc. split; discriminate.
  - destruct ((status =? 401) || (status =? 403)) eqn:Ea.
    { split; [|intros exc; split; discriminate].
      split; [intros (ok & detail & H); discriminate|].
      intros (st & [= <- _] & Hs).
      apply orb_true_iff in Ea. destruct Ea as [E|E]; apply Z.eqb_eq in E; lia. }
    destruct ((status <? 200) || (status >=? 300)) eqn:Es.
    { split; [|intros exc; split; discriminate].
      split; [intros (ok & detail & H); discriminate|].
      intros (st & [= <- _] & Hs).
      apply orb_true_iff in Es. destruct Es as [E|E];
        [apply Z.ltb_lt in E|rewrite Z.geb_leb in E; apply Z.leb_le in E]; lia. }
    apply orb_false_iff in Es. destruct Es as [Es1 Es2].
    apply Z.ltb_ge in Es1. rewrite Z.geb_leb in Es2. apply Z.leb_gt in Es2.
    destruct body as [[| | | | |l|d]|];
      try (split; [|intros exc; split; discriminate];
           split; [intros (ok & detail & H)|intros (st & H & _)]; discriminate).
    split; [|intros exc; destruct (py_ne_str _ _); split; discriminate].
    destruct (py_ne_str _ _).
    + split.
      * intros (ok & detail & [= _ _ ->]). exists status. split; [reflexivity|lia].
      * intros (st & [= _ ->] & _). eauto.
    + split.
      * intros (ok & detail & [= _ _ ->]). exists status. split; [reflexivity|lia].
      * intros (st & [= _ ->] & _). eauto.
  - split.
    + split; [intros (ok & detail & H)|intros (st & H & _)]; discriminate.
    + intros exc. split; intros [= ->]; reflexivity.
Qed.

End Core.

(** ** The remote end, seen from the evaluator *)

(** X25. Unless the gates pass and the run is not a dry run, the
    evaluator does not consult the remote end: a rejection and a dry run
    are the same whatever the HTTP exchange and the injected caller
    would have answered. *)
Theorem dry_run_contacts_nothing (unicode_lower : pystr -> pystr)
    (py_repr : PyVal -> pystr) (post post' : HttpRequest -> HttpOutcome)
    (requested actor : pystr) (ctx : GuardContext) (force : bool)
    (reason : option pystr) (origin : pystr) (policy : GuardPolicy)
    (caller caller' : option NapcatCaller) :
  (forall a p t,
     guard_gates unicode_lower requested actor ctx force reason origin policy
       = inr (a, p, t) ->
     get_effective_dry_run (default_dry_run policy) (dry_run_override policy)
       = true) ->
  execute_guard_action unicode_lower py_repr post requested actor ctx force
    reason origin policy caller
  = execute_guard_action unicode_lower py_repr post' requested actor ctx force
      reason origin policy caller'.
Proof.
  intros H. unfold execute_guard_action.
  destruct (guard_gates unicode_lower requested actor ctx force reason origin
              policy) as [r|[[a p] t]]; [reflexivity|].
  now rewrite (H a p t eq_refl).
Qed.

(** X26. With the default caller, the evaluator reads the remote end at
    one request only, the one built from the policy's host, port and
    token and from the resolved remote action and payload: two remote
    ends that answer this request alike give the same result. *)
Theorem single_request (unicode_lower : pystr -> pystr)
    (py_repr : PyVal -> pystr) (post post' : HttpRequest -> HttpOutcome)
    (requested actor : pystr) (ctx : GuardContext) (force : bool)
    (reason : option pystr) (origin : pystr) (policy : GuardPolicy)
    (a : pystr) (p : Payload) (t : option pystr) :
  guard_gates unicode_lower requested actor ctx force reason origin policy
    = inr (a, p, t) ->
  post (napcat_request (napcat_host policy) (napcat_port policy)
          (napcat_token policy) a p)
  = post' (napcat_request (napcat_host policy) (napcat_port policy)
             (napcat_token policy) a p) ->
  execute_guard_action unicode_lower py_repr post requested actor ctx force
    reason origin policy None
  = execute_guard_action unicode_lower py_repr post' requested actor ctx force
      reason origin policy None.
Proof.
  intros Hg Hpost. unfold execute_guard_action, call_napcat.
  now rewrite Hg, Hpost.
Qed.

(** X27. The invoker does not look at the body of a response whose
    status is outside 200..299: two such responses with the same status
    are reported alike, without a decoded response. *)
Theorem error_status_ignores_body (py_repr : PyVal -> pystr)
    (post post' : HttpRequest -> HttpOutcome)
    (host port token action : pystr) (payload : Payload)
    (status : Z) (body body' : option PyVal) :
  post (napcat_request host port token action payload) = Response status body ->
  post' (napcat_request host port token action payload)
    = Response status body' ->
  status < 200 \/ 300 <= status ->
  call_napcat py_repr post host port token action payload
  = call_napcat py_repr post' host port token action payload /\
  snd (call_napcat py_repr post host port token action payload) = None /\
  fst (fst (call_napcat py_repr post host port token action payload)) = false.
Proof.
  intros H H' Hs. unfold call_napcat. rewrite H, H'.
  destruct ((status =? 401) || (status =? 403)); [now repeat split|].
  replace ((status <? 200) || (status >=? 300)) with true;
    [now repeat split|].
  symmetry. apply orb_true_iff. destruct Hs as [Hs|Hs].
  - left. now apply Z.ltb_lt.
  - right. rewrite Z.geb_leb. now apply Z.leb_le.
Qed.

(** ** The claims at the sample inputs *)

Import Sample.

Lemma cross_context_rejects_witness :
  let eval := execute_guard_action ascii_only no_repr post_ok in
  let devs : gset pystr := {[ «"dev"» ]} in
  success (eval «" Leave "» «"dev"» private_u1 true (Some «"flooding"»)
             «"command"» (policy «"normal"» false devs) None) = false /\
  message (eval «"DELETE"» «"dev"» group_123 false (Some «"flooding"»)
             «"planner"» (policy «"normal"» false devs) None)
    = «"当前是群聊上下文，拒绝执行删好友"» /\
  message (eval «"delete"» «"dev"»
             {| is_group := false; group_id := None; private_user_id := Some [] |}
             false (Some «"flooding"») «"planner"»
             (policy «"normal"» false devs) None)
    = «"当前私聊对象缺失，拒绝执行删好友"».
Proof.
  intros eval devs. subst eval. split; [|split].
  - destruct (cross_context_rejects ascii_only no_repr post_ok «" Leave "»
                «"dev"» private_u1 true (Some «"flooding"») «"command"»
                (policy «"normal"» false devs) None) as (H & _).
    rewrite H; [reflexivity|reflexivity|left; reflexivity].
  - destruct (cross_context_rejects ascii_only no_repr post_ok «"DELETE"»
                «"dev"» group_123 false (Some «"flooding"») «"planner"»
                (policy «"normal"» false devs) None) as (_ & H & _).
    rewrite H; reflexivity.
  - destruct (cross_context_rejects ascii_only no_repr post_ok «"delete"»
                «"dev"»
                {| is_group := false; group_id := None; private_user_id := Some [] |}
                false (Some «"flooding"») «"planner"»
                (policy «"normal"» false devs) None) as (_ & _ & H & _).
    rewrite H; reflexivity.
Defined.

(** C3, as the specification states it, fails: under the invalid mode
    "strict" the evaluator does not fall back to "cautious". An empty
    reason, shorter than the minimum of 4, passes the reason-length gate
    and the request succeeds (as a dry run). *)
Lemma mode_invalid_counterexample :
  let pol := policy «"strict"» true ∅ in
  let r := execute_guard_action ascii_only no_repr post_ok «"delete"» «"u0"»
             private_u1 false (Some []) «"planner"» pol None in
  normalize_mode ascii_only pol = «"strict"» /\
  «"strict"» <> «"cautious"» /\ «"strict"» <> «"normal"» /\
  len (normalize_reason (Some [])) < min_reason_length pol /\
  gate_reason_length «"delete"» (normalize_mode ascii_only pol)
    (normalize_reason (Some [])) (Some «"u1"») «"planner"» pol = inr tt /\
  success r = true.
Proof.
  vm_compute. repeat split; try discriminate; reflexivity.
Qed.

Lemma reason_gate_exact_witness :
  success (execute_guard_action ascii_only no_repr post_ok «"delete"» «"u0"»
             private_u1 false (Some []) «"planner"»
             (policy «"cautious"» false ∅) None) = false.
Proof.
  destruct (reason_gate_exact ascii_only no_repr post_ok «"delete"» «"u0"»
              private_u1 false (Some []) «"planner"»
              (policy «"cautious"» false ∅) None «"delete"» (Some «"u1"»))
    as (_ & _ & H).
  rewrite H; [reflexivity..|simpl; lia].
Defined.

Lemma force_precedence_witness :
  let devs : gset pystr := {[ «"dev"» ]} in
  let eval := execute_guard_action ascii_only no_repr post_ok «"leave"» in
  message (eval «"dev"» group_123 true (Some «"flooding"») «"command"»
             (with_force false (policy «"cautious"» false devs)) None)
    = «"当前配置禁用了 force"» /\
  message (eval «"guest"» group_123 true (Some «"flooding"») «"command"»
             (with_force false (policy «"cautious"» false devs)) None)
    = «"当前配置禁用了 force"» /\
  message (eval «"guest"» group_123 true (Some «"flooding"») «"command"»
             (policy «"cautious"» false devs) None)
    = «"force 仅允许开发者白名单使用"».
Proof.
  intros devs eval. subst eval. split; [|split].
  - destruct (force_precedence ascii_only no_repr post_ok «"leave"» «"dev"»
                group_123 (Some «"flooding"») «"command"»
                (with_force false (policy «"cautious"» false devs)) None
                «"set_group_leave"»
                [(«"group_id"», PyStr «"123"»); («"is_dismiss"», PyBool false)]
                (Some «"123"»)) as (H & _); [reflexivity..|].
    rewrite H; reflexivity.
  - destruct (force_precedence ascii_only no_repr post_ok «"leave"» «"guest"»
                group_123 (Some «"flooding"») «"command"»
                (with_force false (policy «"cautious"» false devs)) None
                «"set_group_leave"»
                [(«"group_id"», PyStr «"123"»); («"is_dismiss"», PyBool false)]
                (Some «"123"»)) as (H & _); [reflexivity..|].
    rewrite H; reflexivity.
  - destruct (force_precedence ascii_only no_repr post_ok «"leave"» «"guest"»
                group_123 (Some «"flooding"») «"command"»
                (policy «"cautious"» false devs) None
                «"set_group_leave"»
                [(«"group_id"», PyStr «"123"»); («"is_dismiss"», PyBool false)]
                (Some «"123"»)) as (_ & H & _); [reflexivity..|].
    rewrite H; [reflexivity|reflexivity|].
    subst devs. vm_compute. intros Hin. discriminate Hin.
Defined.

Lemma dry_run_precedence_witness :
  (let r := execute_guard_action ascii_only no_repr post_ok «"leave"» «"u0"»
              group_123 false None «"planner"» (policy «"normal"» true ∅)
              None in
   success r = true /\ executed r = false /\ dry_run r = true /\
   target_id r = Some «"123"») /\
  (let r := execute_guard_action ascii_only no_repr post_ok «"delete"» «"u0"»
              private_u1 false None «"planner"»
              (with_override (Some true) (policy «"normal"» false ∅)) None in
   success r = true /\ executed r = false /\ dry_run r = true /\
   target_id r = Some «"u1"») /\
  get_effective_dry_run true (Some false) = false.
Proof.
  split; [|split].
  - destruct (dry_run_precedence ascii_only no_repr post_ok «"leave"» «"u0"»
                group_123 false None «"planner"» (policy «"normal"» true ∅)
                None [] [] None) as (_ & _ & _ & H).
    apply H; reflexivity.
  - destruct (dry_run_precedence ascii_only no_repr post_ok «"delete"» «"u0"»
                private_u1 false None «"planner"»
                (with_override (Some true) (policy «"normal"» false ∅)) None
                «"delete_friend"» [(«"user_id"», PyStr «"u1"»)] (Some «"u1"»))
      as (_ & _ & H & _).
    apply H; reflexivity.
  - destruct (dry_run_precedence ascii_only no_repr post_ok «"leave"» «"u0"»
                group_123 false None «"planner"» (policy «"normal"» true ∅)
                None [] [] None) as (H & _).
    apply H.
Defined.

Lemma unsupported_action_result_witness :
  action_type (execute_guard_action ascii_only no_repr post_ok «" KICK "»
                 «"u0"» group_123 false None «"command"»
                 (policy «"normal"» true ∅) None) = «"kick"» /\
  action_type (execute_guard_action ascii_only no_repr post_ok «"   "»
                 «"u0"» group_123 false None «"command"»
                 (policy «"normal"» true ∅) None) = «"   "».
Proof.
  split.
  - destruct (unsupported_action_result ascii_only no_repr post_ok «" KICK "»
                «"u0"» group_123 false None «"command"»
                (policy «"normal"» true ∅) None) as (_ & H & _);
      [vm_compute; discriminate..|].
    rewrite H; [reflexivity|vm_compute; discriminate].
  - destruct (unsupported_action_result ascii_only no_repr post_ok «"   "»
                «"u0"» group_123 false None «"command"»
                (policy «"normal"» true ∅) None) as (_ & _ & H);
      [vm_compute; discriminate..|].
    rewrite H; reflexivity.
Defined.

(** C7, as the specification states it, fails: for the unsupported action
    type "KICK" the result carries the lowercased "kick", not the input
    echoed back. *)
Lemma unsupported_action_counterexample :
  let r := execute_guard_action ascii_only no_repr post_ok «"KICK"» «"u0"»
             group_123 false None «"command"» (policy «"normal"» true ∅)
             None in
  success r = false /\ action_type r = «"kick"» /\ action_type r <> «"KICK"».
Proof.
  vm_compute. repeat split; discriminate.
Qed.

Lemma auth_failure_reported_witness :
  call_napcat no_repr post_403 «"127.0.0.1"» «"3000"» [] «"delete_friend"»
    [(«"user_id"», PyStr «"u1"»)]
  = (false, «"NapCat 鉴权失败(HTTP 403)"», None) /\
  (let r := execute_guard_action ascii_only no_repr post_403 «"delete"» «"u0"»
              private_u1 false (Some «"flooding"») «"planner"»
              (policy «"cautious"» false ∅) None in
   success r = false /\ executed r = false).
Proof.
  destruct (auth_failure_reported ascii_only no_repr post_403 «"delete"» «"u0"»
              private_u1 false (Some «"flooding"») «"planner"»
              (policy «"cautious"» false ∅)
              «"delete_friend"» [(«"user_id"», PyStr «"u1"»)] (Some «"u1"»)
              «"127.0.0.1"» «"3000"» [] «"delete_friend"»
              [(«"user_id"», PyStr «"u1"»)] 403 None)
    as (Hcall & _ & Heval); [right; reflexivity|].
  split.
  - rewrite Hcall; reflexivity.
  - rewrite Heval; [split; reflexivity|reflexivity..].
Defined.

Lemma remote_ok_executes_witness :
  call_napcat no_repr post_ok «"127.0.0.1"» «"3000"» [] «"set_group_leave"»
    [(«"group_id"», PyStr «"123"»); («"is_dismiss"», PyBool false)]
  = (true, «"ok"», Some ok_body) /\
  (let r := execute_guard_action ascii_only no_repr post_ok «"leave"» «"u0"»
              group_123 false (Some «"flooding"») «"planner"»
              (policy «"cautious"» false ∅) None in
   success r = true /\ executed r = true /\ dry_run r = false).
Proof.
  destruct (remote_ok_executes ascii_only no_repr post_ok «"leave"» «"u0"»
              group_123 false (Some «"flooding"») «"planner"»
              (policy «"cautious"» false ∅)
              «"set_group_leave"»
              [(«"group_id"», PyStr «"123"»); («"is_dismiss"», PyBool false)]
              (Some «"123"»)
              «"127.0.0.1"» «"3000"» [] «"set_group_leave"»
              [(«"group_id"», PyStr «"123"»); («"is_dismiss"», PyBool false)]
              200 ok_body)
    as (Hcall & Heval & _); [lia|reflexivity|].
  split.
  - rewrite Hcall; reflexivity.
  - rewrite Heval; [repeat split|reflexivity..].
Defined.

Lemma rejection_target_witness :
  target_id (execute_guard_action ascii_only no_repr post_ok «"delete"» «"u0"»
               private_u1 false (Some «"no"») «"planner"»
               (policy «"cautious"» false ∅) None) = Some «"u1"» /\
  target_id (execute_guard_action ascii_only no_repr post_ok «"delete"» «"u0"»
               group_123 false (Some «"no"») «"planner"»
               (policy «"cautious"» false ∅) None) = None.
Proof.
  split.
  - destruct (rejection_target ascii_only no_repr post_ok «"delete"» «"u0"»
                private_u1 false (Some «"no"») «"planner"»
                (policy «"cautious"» false ∅) None
                {| success := false;
                   message := «"审慎模式拒绝执行：reason 至少 4 个字符"»;
                   action_type := «"delete"»;
                   target_id := Some «"u1"»;
                   source := «"planner"»;
                   executed := false;
                   dry_run := false |}) as (H & _); [reflexivity|].
    rewrite H. reflexivity.
  - destruct (rejection_target ascii_only no_repr post_ok «"delete"» «"u0"»
                group_123 false (Some «"no"») «"planner"»
                (policy «"cautious"» false ∅) None
                {| success := false;
                   message := «"当前是群聊上下文，拒绝执行删好友"»;
                   action_type := «"delete"»;
                   target_id := None;
                   source := «"planner"»;
                   executed := false;
                   dry_run := false |}) as (_ & _ & H); [reflexivity|].
    apply H. right. split; reflexivity.
Defined.

(** ** The further properties at the sample inputs *)

Lemma normalize_reason_trimmed_witness :
  normalize_reason (Some «"   "») = [] /\
  len (normalize_reason (Some «"  spam  "»)) <= len «"  spam  "».
Proof.
  destruct (normalize_reason_trimmed (Some «"   "»)) as (_ & _ & _ & H & _).
  destruct (normalize_reason_trimmed (Some «"  spam  "»)) as (_ & _ & H' & _).
  split; [now apply (H «"   "»)|now apply (H' «"  spam  "»)].
Defined.

Lemma reason_padding_ignored_witness :
  execute_guard_action ascii_only no_repr post_ok «"delete"» «"u0"» private_u1
    false (Some («"  "» ++ «"no"» ++ «" "»)) «"planner"»
    (policy «"cautious"» false ∅) None
  = execute_guard_action ascii_only no_repr post_ok «"delete"» «"u0"»
      private_u1 false (Some «"no"») «"planner"»
      (policy «"cautious"» false ∅) None.
Proof.
  apply (reason_padding_ignored ascii_only no_repr post_ok); reflexivity.
Defined.

Lemma parse_bool_like_robust_witness :
  parse_bool_like ascii_only (PyStr («" "» ++ «"Yes"» ++ «"  "»)) false
  = parse_bool_like ascii_only (PyStr «"Yes"») false.
Proof.
  destruct (parse_bool_like_robust ascii_only PyNone «" "» «"Yes"» «"  "»
              false) as (H & _).
  apply H; reflexivity.
Defined.

Lemma success_stays_in_context_witness :
  exists id,
    id <> [] /\
    target_id (execute_guard_action ascii_only no_repr post_ok «"leave"»
                 «"u0"» group_123 false None «"planner"»
                 (policy «"normal"» true ∅) None) = Some id /\
    group_id group_123 = Some id.
Proof.
  destruct (success_stays_in_context ascii_only no_repr post_ok «"leave"»
              «"u0"» group_123 false None «"planner"»
              (policy «"normal"» true ∅) None)
    as (id & Hne & Ht & [(_ & _ & Hg)|(_ & Hg & _)]);
    [reflexivity| |discriminate Hg].
  exists id. auto.
Defined.

Lemma reason_gate_monotone_witness :
  gate_reason_length «"delete"» «"cautious"» [] (Some «"u1"») «"planner"»
    {| mode := «"cautious"»; developer_whitelist := ∅; allow_force := true;
       default_dry_run := false; dry_run_override := None;
       napcat_host := «"127.0.0.1"»; napcat_port := «"3000"»;
       napcat_token := []; min_reason_length := 0 |}
  = inr tt.
Proof.
  destruct (reason_gate_monotone «"delete"» «"cautious"» [] []
              (Some «"u1"») «"planner"»
              {| mode := «"cautious"»; developer_whitelist := ∅;
                 allow_force := true; default_dry_run := false;
                 dry_run_override := None; napcat_host := «"127.0.0.1"»;
                 napcat_port := «"3000"»; napcat_token := [];
                 min_reason_length := 0 |}) as (_ & H).
  apply H. simpl. lia.
Defined.

Lemma remote_call_resolved_witness :
  exists id,
    id <> [] /\
    [(«"user_id"», PyStr «"u1"»)] = [(«"user_id"», PyStr id)].
Proof.
  destruct (remote_call_resolved ascii_only «"delete"» «"u0"» private_u1
              false (Some «"flooding"») «"planner"»
              (policy «"normal"» false ∅) «"delete_friend"»
              [(«"user_id"», PyStr «"u1"»)] (Some «"u1"»))
    as (id & Hne & _ & [(_ & Hg & _)|(_ & _ & _ & _ & Hp)]);
    [reflexivity|discriminate Hg|].
  exists id. auto.
Defined.

Lemma get_nested_path_witness :
  _get_nested (Some config) («"security"» ++ «"."» ++ «"mode"») PyNone
  = PyStr «" Normal "» /\
  _get_nested (Some config) («"security"» ++ «"."» ++ «"level"») PyNone
  = PyNone /\
  _get_nested (Some config) «"plugin"» (PyBool true) = PyBool true.
Proof.
  assert (Hs : Forall (fun c => c <> 46%N) «"security"»)
    by (vm_compute;
        repeat (constructor; try (intros E; discriminate E))).
  assert (Hp : Forall (fun c => c <> 46%N) «"plugin"»)
    by (vm_compute;
        repeat (constructor; try (intros E; discriminate E))).
  destruct (get_nested_path config «"security"» «"mode"» PyNone Hs)
    as (_ & _ & H1).
  destruct (get_nested_path config «"security"» «"level"» PyNone Hs)
    as (_ & _ & H2).
  destruct (get_nested_path config «"plugin"» [] (PyBool true) Hp)
    as (_ & H3 & _).
  split; [|split].
  - rewrite H1. reflexivity.
  - rewrite H2. reflexivity.
  - rewrite H3. reflexivity.
Defined.

Lemma to_whitelist_members_witness :
  «"42"» ∈ _to_whitelist no_repr
             (PyList [PyStr «" dev "»; PyInt 42; PyStr «"  "»]).
Proof.
  destruct (to_whitelist_members no_repr
              (PyList [PyStr «" dev "»; PyInt 42; PyStr «"  "»]) «"42"»)
    as (H & _).
  apply H. split; [vm_compute; discriminate|].
  exists [PyStr «" dev "»; PyInt 42; PyStr «"  "»], (PyInt 42).
  split; [reflexivity|]. split; [right; left; reflexivity|reflexivity].
Defined.

Lemma build_policy_defaults_witness :
  mode (fst (_build_policy ascii_only no_repr (Some []) (Some true)))
  = «"cautious"» /\
  snd (_build_policy ascii_only no_repr None None) = [].
Proof.
  split.
  - rewrite (build_policy_defaults ascii_only no_repr (Some []) (Some true));
      [reflexivity|right; reflexivity].
  - rewrite (build_policy_defaults ascii_only no_repr None None);
      [reflexivity|left; reflexivity].
Defined.

Lemma command_denied_witness :
  snd (LeaveDeleteGuardCommand_execute ascii_only no_repr post_ok
         (message_of «"/ldg dryrun on"» (PyStr «"guest"») None)
         (Some config) None)
  = inr (false, «"无权限：/ldg 仅允许 developer_whitelist 用户使用。"», 2) /\
  fst (fst (LeaveDeleteGuardCommand_execute ascii_only no_repr post_ok
              (message_of «"/ldg dryrun on"» (PyStr «"guest"») None)
              (Some config) None)) = None.
Proof.
  rewrite (command_denied ascii_only no_repr post_ok
             (message_of «"/ldg dryrun on"» (PyStr «"guest"») None)
             (Some config) None).
  - split; reflexivity.
  - right. vm_compute. intros H. discriminate H.
Defined.

Lemma command_raises_on_blank_witness :
  snd (LeaveDeleteGuardCommand_execute ascii_only no_repr post_ok
         (message_of «"   "» (PyStr «"dev"») None) (Some config) None)
  = inl IndexError.
Proof.
  destruct (command_raises_on_blank ascii_only no_repr post_ok
              (message_of «"   "» (PyStr «"dev"») None) (Some config) None)
    as (H & _).
  apply H. split; [vm_compute; reflexivity|reflexivity].
Defined.

Lemma command_dryrun_override_witness :
  LeaveDeleteGuardCommand_execute ascii_only no_repr post_ok
    (message_of «" /ldg  DryRun ON "» (PyInt 42) None) (Some config) None
  = (Some true,
     [SendText «"已设置运行时 dry_run=ON（仅当前进程有效）"»],
     inr (true, «"已设置运行时 dry_run=ON（仅当前进程有效）"», 2)).
Proof.
  destruct (command_dryrun_override ascii_only no_repr post_ok
              (message_of «" /ldg  DryRun ON "» (PyInt 42) None)
              (Some config) None «"/ldg"» «"DryRun"» «"ON"» true) as (H & _).
  rewrite H; vm_compute; reflexivity.
Defined.

Lemma command_sends_one_text_witness :
  exists shown,
    snd (fst (LeaveDeleteGuardCommand_execute ascii_only no_repr post_ok
                (message_of «"/ldg leave"» (PyStr «"dev"») group_77)
                (Some config) None))
    = snd (_build_policy ascii_only no_repr (Some config) None)
        ++ [SendText shown].
Proof.
  destruct (command_sends_one_text ascii_only no_repr post_ok
              (message_of «"/ldg leave"» (PyStr «"dev"») group_77)
              (Some config) None true
              («"[dry-run] 已通过校验，将执行 leave -> 77; source=command; "»
                 ++ «"force=False; reason=command:/ldg leave"») 2)
    as (_ & H); [reflexivity|exact H].
Defined.

Lemma dry_run_contacts_nothing_witness :
  execute_guard_action ascii_only no_repr post_ok «"leave"» «"u0"» group_123
    false None «"planner"» (policy «"normal"» true ∅) None
  = execute_guard_action ascii_only no_repr post_403 «"leave"» «"u0"»
      group_123 false None «"planner"» (policy «"normal"» true ∅) None.
Proof.
  apply dry_run_contacts_nothing. intros a p t _. reflexivity.
Defined.

Lemma single_request_witness :
  execute_guard_action ascii_only no_repr post_ok «"leave"» «"u0"» group_123
    false None «"planner"» (policy «"normal"» false ∅) None
  = execute_guard_action ascii_only no_repr
      (fun req =>
         if eqb (req_url req) «"http://127.0.0.1:3000/set_group_leave"»
         then Response 200 (Some (PyDict ok_body))
         else TimeoutException)
      «"leave"» «"u0"» group_123 false None «"planner"»
      (policy «"normal"» false ∅) None.
Proof.
  apply (single_request ascii_only no_repr post_ok _ «"leave"» «"u0"»
           group_123 false None «"planner"» (policy «"normal"» false ∅)
           «"set_group_leave"»
           [(«"group_id"», PyStr «"123"»); («"is_dismiss"», PyBool false)]
           (Some «"123"»)); reflexivity.
Defined.

Lemma error_status_ignores_body_witness :
  call_napcat no_repr (fun _ => Response 500 None) «"127.0.0.1"» «"3000"» []
    «"delete_friend"» [(«"user_id"», PyStr «"u1"»)]
  = call_napcat no_repr (fun _ => Response 500 (Some (PyDict ok_body)))
      «"127.0.0.1"» «"3000"» [] «"delete_friend"»
      [(«"user_id"», PyStr «"u1"»)].
Proof.
  apply (error_status_ignores_body no_repr (fun _ => Response 500 None)
           (fun _ => Response 500 (Some (PyDict ok_body)))
           «"127.0.0.1"» «"3000"» [] «"delete_friend"»
           [(«"user_id"», PyStr «"u1"»)] 500 None (Some (PyDict ok_body)));
    [reflexivity|reflexivity|right; lia].
Defined.

Lemma built_policy_reason_gate_witness :
  exists r,
    gate_reason_length «"delete"»
      (normalize_mode ascii_only
         (fst (_build_policy ascii_only no_repr
                 (Some [(«"security"», PyDict [(«"mode"», PyStr «"strict"»)])])
                 None)))
      (normalize_reason (Some «" no "»)) (Some «"u1"») «"planner"»
      (fst (_build_policy ascii_only no_repr
              (Some [(«"security"», PyDict [(«"mode"», PyStr «"strict"»)])])
              None))
    = inl r.
Proof.
  apply (built_policy_reason_gate ascii_only no_repr
           (Some [(«"security"», PyDict [(«"mode"», PyStr «"strict"»)])])
           None «"delete"» (Some «" no "») (Some «"u1"») «"planner"»).
  split; [vm_compute; discriminate|vm_compute; reflexivity].
Defined.

Lemma planner_succeeds_iff_witness :
  fst (fst (LeaveDeleteGuardAction_execute ascii_only no_repr post_ok «"[ldg]"»
              [(«"reason"», PyStr «" repeated insults "»);
               («"force"», PyBool true)]
              PyNone (Some config) true (Some «"77"») (Some «"u9"») None))
  = true.
Proof.
  apply (planner_succeeds_iff ascii_only no_repr post_ok «"[ldg]"»
           [(«"reason"», PyStr «" repeated insults "»);
            («"force"», PyBool true)]
           PyNone (Some config) true (Some «"77"») (Some «"u9"») None).
  split; [reflexivity|]. split.
  - vm_compute. intros [H _]. discriminate H.
  - left. vm_compute. reflexivity.
Defined.

Lemma runtime_override_wins_witness :
  let p := fst (_build_policy ascii_only no_repr (Some config) (Some false)) in
  default_dry_run p = true /\
  get_effective_dry_run (default_dry_run p) (dry_run_override p) = false.
Proof.
  intros p. split; [vm_compute; reflexivity|].
  destruct (runtime_override_wins ascii_only no_repr post_ok (Some config)
              false «"leave"» «"u0"» group_123 false None «"planner"» None)
    as (H & _).
  exact H.
Defined.

(** ** The amended claims at the sample inputs *)

Lemma mode_resolution_witness :
  normalize_mode ascii_only (policy [] true ∅) = «"cautious"» /\
  normalize_mode ascii_only (policy «"  Cautious "» true ∅) = «"cautious"» /\
  normalize_mode ascii_only (policy «" STRICT "» true ∅) = «"strict"» /\
  gate_reason_length «"delete"»
    (normalize_mode ascii_only (policy «"strict"» true ∅))
    (normalize_reason None) (Some «"u1"») «"planner"»
    (policy «"strict"» true ∅)
  = inr tt.
Proof.
  split; [|split; [|split]].
  - destruct (mode_resolution ascii_only «"delete"» None (Some «"u1"»)
                «"planner"» (policy [] true ∅)) as (H & _).
    apply H. reflexivity.
  - destruct (mode_resolution ascii_only «"delete"» None (Some «"u1"»)
                «"planner"» (policy «"  Cautious "» true ∅))
      as (_ & _ & _ & H & _).
    apply (H «"  "» «"Cautious"» «" "»); vm_compute; reflexivity.
  - destruct (mode_resolution ascii_only «"delete"» None (Some «"u1"»)
                «"planner"» (policy «" STRICT "» true ∅))
      as (_ & _ & H & _).
    rewrite H; [vm_compute; reflexivity|vm_compute; discriminate
               |vm_compute; reflexivity].
  - destruct (mode_resolution ascii_only «"delete"» None (Some «"u1"»)
                «"planner"» (policy «"strict"» true ∅))
      as (_ & _ & _ & _ & _ & H).
    apply H; vm_compute; discriminate.
Defined.



Lemma call_napcat_raw_witness :
  exists ok detail,
    call_napcat_or_raise no_repr (fun req => Handled (post_ok req))
      «"127.0.0.1"» «"3000"» [] «"delete_friend"»
      [(«"user_id"», PyStr «"u1"»)]
    = inr (ok, detail, Some ok_body).
Proof.
  destruct (call_napcat_raw no_repr (fun req => Handled (post_ok req))
              «"127.0.0.1"» «"3000"» [] «"delete_friend"»
              [(«"user_id"», PyStr «"u1"»)] ok_body) as (H & _).
  apply H. exists 200. split; [reflexivity|lia].
Defined.
